(** * UM.LockFile: a marker-file lock, embedded and verified

    The Python class [LockFile] (src/UM/LockFile.py) guards a directory with
    a marker file.  [__enter__] spins until the marker is gone or stale and
    then (re)creates it; [__exit__] removes it.

    The embedding is shallow.  Every method is a computation in a small
    state-and-exception monad [M] over a [state] that holds the instance
    attributes, the file system, the wall clock, the logger's output and a
    counter of the system calls made so far.  Everything the rest of the
    machine does (other processes touching the file system, time passing,
    system calls failing) is supplied by an [environment]: one
    [interference] per system call, looked up by the call's number.

    Numbers are the ones Python computes with.  The clock and the files'
    time stamps are exact rationals in the [state]; what [time.time] and
    [os.path.getmtime] hand to the program is the nearest IEEE 754 double
    ([timestamp]).  The timeout is a Python [int] of any size.  The sum
    [getmtime(...) + timeout] is computed as Python does it: the [int] is
    converted to a double, which raises [OverflowError] when it is too
    large, and the sum of the two doubles is rounded to the nearest double,
    or to an infinity.  The comparisons are exact comparisons of doubles.

    What the model leaves out:
    - how the C library turns the kernel's seconds and nanoseconds into a
      double: a reading is the double nearest to the exact time, and a time
      beyond the range of a double (no 64-bit [time_t] gets there) reads as
      the largest double;
    - a file's modification time is taken from the same clock that
      [time.time] reads;
    - [time.sleep(0.1)] takes a tenth of a second; whatever longer it takes
      is time the environment lets pass before the next call;
    - an open file is known by its path: the flush and close at the end of
      [with open(...)] are part of the write, and the write goes to the
      file that is at the path when it is made.  That is the file that was
      opened unless another process unlinked the marker since; a marker
      unlinked and recreated between this process's [open] and [write]
      is written to as if it were the one opened.  The statements about
      what the marker holds assume that nobody touches it between the two
      calls;
    - the [while] loop runs on fuel, one unit per poll; an outcome
      [StillWaiting] means the fuel ran out with the loop still polling. *)

From Stdlib Require Import QArith Qround Qabs Qpower Lqa ZArith String List Lia.
From stdpp Require Import base option gmap strings pretty.

Open Scope string_scope.

(** ** Exceptions *)

(** The [errno] carried by an [OSError].  Python picks the subclass from
    it: [ENOENT] is [FileNotFoundError], [EACCES] is [PermissionError]. *)
Inductive errno := ENOENT | EACCES | EIO | ENOSPC | EROFS | EISDIR.

(** [OverflowError] is an [ArithmeticError], not an [OSError]. *)
Inductive exn :=
| OSError (code : errno)
| OverflowError
| Exception (what : string).

Definition FileNotFoundError : exn := OSError ENOENT.

Definition errno_eqb (a b : errno) : bool :=
  match a, b with
  | ENOENT, ENOENT | EACCES, EACCES | EIO, EIO
  | ENOSPC, ENOSPC | EROFS, EROFS | EISDIR, EISDIR => true
  | _, _ => false
  end.

(** [isinstance(e, FileNotFoundError)] and [isinstance(e, OSError)]. *)
Definition is_FileNotFoundError (e : exn) : bool :=
  match e with
  | OSError c => errno_eqb c ENOENT
  | OverflowError => false
  | Exception _ => false
  end.

Definition is_OSError (e : exn) : bool :=
  match e with
  | OSError _ => true
  | OverflowError => false
  | Exception _ => false
  end.

(** ** Floating point *)

Open Scope Q_scope.

Definition Qltb (x y : Q) : bool :=
  (Qnum x * QDen y <? Qnum y * QDen x)%Z.

(** Python's [float] is the IEEE 754 double: 53 bits of significand,
    exponents from -1022 to 1023, rounding to nearest with ties to the even
    significand.  A finite double is a rational; the functions below work
    on rationals and say which ones are doubles. *)

Definition two_pow (e : Z) : Q := 2 ^ e.

(** For [q > 0], the [e] with [2^e <= q < 2^(e+1)]. *)
Definition ilog2 (q : Q) : Z :=
  let e := (Z.log2 (Qnum q) - Z.log2 (Zpos (Qden q)))%Z in
  if Qle_bool (two_pow e) q then e else (e - 1)%Z.

(** The nearest integer, ties to even. *)
Definition rne (q : Q) : Z :=
  let n := Qfloor q in
  match Qcompare (q - inject_Z n) (1 # 2) with
  | Lt => n
  | Gt => (n + 1)%Z
  | Eq => if Z.even n then n else (n + 1)%Z
  end.

(** The exponent a double near [q > 0] has (subnormal numbers share the
    lowest one), and the weight of the last bit of its significand. *)
Definition exponent (q : Q) : Z := Z.max (ilog2 q) (-1022).

Definition ulp (q : Q) : Q := two_pow (exponent q - 52).

Definition round_pos (q : Q) : Q := inject_Z (rne (q / ulp q)) * ulp q.

(** [q] rounded to 53 bits, with no bound on the exponent from above. *)
Definition binary64 (q : Q) : Q :=
  match Qnum q with
  | Z0 => 0
  | Zpos _ => round_pos q
  | Zneg _ => - round_pos (- q)
  end.

(** The rounded value is beyond the largest double. *)
Definition beyond_float (q : Q) : bool := Qle_bool (two_pow 1024) (Qabs q).

Definition DBL_MAX : Q := inject_Z (2 ^ 53 - 1) * two_pow 971.

(** The time [q], in seconds, as the double that [time.time] and
    [os.stat] hand out. *)
Definition timestamp (q : Q) : Q :=
  let x := binary64 q in
  if Qle_bool (two_pow 1024) x then DBL_MAX
  else if Qle_bool x (- two_pow 1024) then - DBL_MAX
  else x.


(** The result of an addition of doubles. *)
Inductive float := Finite (q : Q) | PlusInf | MinusInf.

(** [float(z)] for a Python [int]: [None] is [OverflowError], "int too
    large to convert to float". *)
Definition float_of_int (z : Z) : option Q :=
  let x := binary64 (inject_Z z) in
  if beyond_float x then None else Some x.

(** [a + b] for two finite doubles: the exact sum rounded, an infinity
    when that is beyond the largest double. *)
Definition float_add (a b : Q) : float :=
  let s := binary64 (a + b) in
  if beyond_float s then (if Qltb 0 s then PlusInf else MinusInf) else Finite s.

(** [x < y] for a finite double [x]. *)
Definition float_lt (x : Q) (y : float) : bool :=
  match y with
  | Finite q => Qltb x q
  | PlusInf => true
  | MinusInf => false
  end.

Close Scope Q_scope.

(** ** The world *)

(** What [os.stat] sees of a file: its text and its modification time,
    in seconds since the epoch. *)
Record file := File { content : string; mtime : Q }.

(** The instance attributes set by the constructor. *)
Record LockFile := mkLockFile {
  _filename : string;
  _wait_msg : string;
  _timeout : Z
}.

Record state := mkState {
  self : LockFile;                 (* the attributes of the guard *)
  fs : gmap string file;           (* path -> file *)
  clock : Q;                       (* the time of day, in seconds *)
  log : list (string * string);    (* Logger.log calls, oldest first *)
  pid : Z;                         (* os.getpid() *)
  tick : nat                       (* system calls made so far *)
}.

Inductive syscall := sys_stat | sys_open | sys_write | sys_unlink.

(** What happens around one system call: the time that passes before it,
    what other processes do to the file system before it, and whether the
    call itself fails. *)
Record interference := mkInterference {
  elapsed : Q;
  meddle : gmap string file -> gmap string file;
  fault : syscall -> option errno
}.

Definition environment := nat -> interference.

Definition idle : interference :=
  {| elapsed := 0; meddle := fun σ => σ; fault := fun _ => None |}.

(** No other process, no failure, time passes only in [time.sleep]. *)
Definition alone : environment := fun _ => idle.

(** ** The monad *)

(** [StillWaiting]: the spin loop used up its fuel and is still polling. *)
Inductive outcome (A : Type) :=
| Return (a : A)
| Raise (e : exn)
| StillWaiting.
Arguments Return {A} a.
Arguments Raise {A} e.
Arguments StillWaiting {A}.

Definition M (A : Type) : Type := state -> outcome A * state.

#[export] Instance M_ret : MRet M := fun A a w => (Return a, w).

#[export] Instance M_bind : MBind M := fun A B k m w =>
  match m w with
  | (Return a, w') => k a w'
  | (Raise e, w') => (Raise e, w')
  | (StillWaiting, w') => (StillWaiting, w')
  end.

Definition raise {A} (e : exn) : M A := fun w => (Raise e, w).

Definition spinning {A} : M A := fun w => (StillWaiting, w).

(** [try: body  except <handled>: ...]: [handler e] is [None] when no
    [except] clause matches [e], which then propagates. *)
Definition try_except {A} (body : M A) (handler : exn -> option (M A)) : M A :=
  fun w =>
    match body w with
    | (Raise e, w') =>
        match handler e with
        | Some h => h w'
        | None => (Raise e, w')
        end
    | r => r
    end.

Definition get_self : M LockFile := fun w => (Return (self w), w).

(** ** Library calls *)

(** [st_mtime] of an [os.stat] result: the time stamp as a double. *)
Definition st_mtime (st : file) : Q := timestamp (mtime st).

(** [x + n] for a float [x] and an int [n]: the int is converted to a
    float first, and the conversion may raise. *)
Definition float_add_int (x : Q) (n : Z) : M float :=
  match float_of_int n with
  | Some y => mret (float_add x y)
  | None => raise OverflowError
  end.

Section Calls.
Variable env : environment.

(** The state as the next system call finds it. *)
Definition interfere (w : state) : state :=
  let i := env (tick w) in
  {| self := self w;
     fs := meddle i (fs w);
     clock := (clock w + elapsed i)%Q;
     log := log w;
     pid := pid w;
     tick := S (tick w) |}.

Definition failing (c : syscall) (w : state) : option errno :=
  fault (env (tick w)) c.

Definition os_stat (path : string) : M file := fun w =>
  let w' := interfere w in
  match failing sys_stat w with
  | Some c => (Raise (OSError c), w')
  | None =>
      match fs w' !! path with
      | Some f => (Return f, w')
      | None => (Raise FileNotFoundError, w')
      end
  end.

(** [os.path.exists]: [os.stat] with every [OSError] turned into
    [False]. *)
Definition os_path_exists (path : string) : M bool :=
  try_except (os_stat path ;; mret true)
             (fun e => if is_OSError e then Some (mret false) else None).

Definition os_path_getmtime (path : string) : M Q :=
  st ← os_stat path; mret (st_mtime st).

Definition time_time : M Q := fun w =>
  let w' := interfere w in (Return (timestamp (clock w')), w').

Definition time_sleep (secs : Q) : M unit := fun w =>
  let w' := interfere w in
  (Return tt,
   {| self := self w'; fs := fs w'; clock := (clock w' + secs)%Q;
      log := log w'; pid := pid w'; tick := tick w' |}).

Definition os_getpid : M Z := fun w => (Return (pid w), w).

(** The logging collaborator records the pair and never fails. *)
Definition Logger_log (severity message : string) : M unit := fun w =>
  (Return tt,
   {| self := self w; fs := fs w; clock := clock w;
      log := log w ++ [(severity, message)]; pid := pid w;
      tick := tick w |}).

Definition put_file (path : string) (f : file) (w : state) : state :=
  {| self := self w; fs := <[path := f]> (fs w); clock := clock w;
     log := log w; pid := pid w; tick := tick w |}.

Definition drop_file (path : string) (w : state) : state :=
  {| self := self w; fs := delete path (fs w); clock := clock w;
     log := log w; pid := pid w; tick := tick w |}.

(** [open(path, "w", encoding = "utf-8")]: creates the file or empties
    it.  The handle is the path. *)
Definition open_w (path : string) : M string := fun w =>
  let w' := interfere w in
  match failing sys_open w with
  | Some c => (Raise (OSError c), w')
  | None => (Return path, put_file path (File "" (clock w')) w')
  end.

(** [lock_file.write(text)] together with the flush and close at the end
    of the [with open(...)] block.  If the path was unlinked since it was
    opened the text goes to the orphaned file and the directory is left
    as it is.  Otherwise the text goes to the file at the path, which is
    the file that was opened unless another process has put a new file in
    its place since; every statement below about what the marker holds
    assumes that nobody touched it between the [open] and the [write]. *)
Definition file_write (handle text : string) : M unit := fun w =>
  let w' := interfere w in
  match failing sys_write w with
  | Some c => (Raise (OSError c), w')
  | None =>
      match fs w' !! handle with
      | Some _ => (Return tt, put_file handle (File text (clock w')) w')
      | None => (Return tt, w')
      end
  end.

Definition os_remove (path : string) : M unit := fun w =>
  let w' := interfere w in
  match failing sys_unlink w with
  | Some c => (Raise (OSError c), w')
  | None =>
      match fs w' !! path with
      | Some _ => (Return tt, drop_file path w')
      | None => (Raise FileNotFoundError, w')
      end
  end.

End Calls.

(** ** class LockFile *)

Definition default_timeout : Z := 10.
Definition default_wait_msg : string := "Waiting for lock file to disappear...".

(** [__init__(self, filename, timeout = 10, wait_msg = "Waiting ...")]:
    an omitted argument is [None]. *)
Definition __init__ (filename : string) (timeout : option Z)
    (wait_msg : option string) : LockFile :=
  {| _filename := filename;
     _wait_msg := default default_wait_msg wait_msg;
     _timeout := default default_timeout timeout |}.

Section Methods.
Variable env : environment.

(** The condition of the [while], left to right with Python's
    short-circuit [and]: one [exists], then up to two [getmtime].  The sum
    [getmtime(...) + self._timeout] is evaluated before it is compared
    with [now]. *)
Definition wait_condition (now : Q) : M bool :=
  this ← get_self;
  there ← os_path_exists env (_filename this);
  if negb there then mret false else
  m1 ← os_path_getmtime env (_filename this);
  limit ← float_add_int m1 (_timeout this);
  if negb (float_lt now limit) then mret false else
  m2 ← os_path_getmtime env (_filename this);
  mret (Qltb m2 now).

(** The [while] loop; [fuel] bounds the number of polls. *)
Fixpoint wait_loop (fuel : nat) (now : Q) : M unit :=
  match fuel with
  | O => spinning
  | S fuel' =>
      go_on ← wait_condition now;
      if (go_on : bool) then
        this ← get_self;
        Logger_log "d" (_wait_msg this) ;;
        time_sleep env (1 # 10) ;;
        now' ← time_time env;
        wait_loop fuel' now'
      else mret tt
  end.

(** [except FileNotFoundError: pass] *)
Definition gone_is_fine (e : exn) : option (M unit) :=
  if is_FileNotFoundError e then Some (mret tt) else None.

Definition _waitLockFileDisappear (fuel : nat) : M unit :=
  now ← time_time env;
  try_except (wait_loop fuel now) gone_is_fine.

Definition _createLockFile : M unit :=
  this ← get_self;
  try_except
    (lock_file ← open_w env (_filename this);
     me ← os_getpid;
     file_write env lock_file (pretty me))
    (fun _ => Some (Logger_log "e"
                ("Could not create lock file [" ++ _filename this ++ "]"))).

Definition _deleteLockFile : M unit :=
  this ← get_self;
  try_except
    (os_remove env (_filename this))
    (fun e => if is_FileNotFoundError e then Some (mret tt)
              else Some (Logger_log "e"
                ("Could not delete lock file [" ++ _filename this ++ "]"))).

Definition __enter__ (fuel : nat) : M unit :=
  _waitLockFileDisappear fuel ;;
  _createLockFile.

(** The three arguments describe the exception leaving the block, if
    any; the method does not look at them and returns [None]. *)
Definition __exit__ (exc : option exn) : M (option bool) :=
  _deleteLockFile ;;
  mret (None : option bool).

End Methods.

(** ** The [with] statement *)

(** The context-manager protocol: what [with] asks of the guard. *)
Class ContextManager := {
  cm_enter : M unit;
  cm_exit : option exn -> M (option bool)
}.

(** Truth value of what [__exit__] returned ([None] is false). *)
Definition truthy (v : option bool) : bool :=
  match v with
  | Some b => b
  | None => false
  end.

(** The block of a [with] and the call of [__exit__] that ends it.
    [__exit__] gets the exception leaving the body, if there is one, and
    the exception is dropped only if [__exit__] returns something true. *)
Definition guarded (mgr : ContextManager) (body : M unit) : M unit :=
  fun w =>
    match body w with
    | (Return _, w1) => (cm_exit None ;; mret tt) w1
    | (Raise e, w1) =>
        (suppress ← cm_exit (Some e);
         if truthy suppress then mret tt else raise e) w1
    | (StillWaiting, w1) => (StillWaiting, w1)
    end.

(** [with mgr: body] *)
Definition with_stmt (mgr : ContextManager) (body : M unit) : M unit :=
  cm_enter ;; guarded mgr body.

(** [LockFile] as a context manager. *)
Definition LockFile_cm (env : environment) (fuel : nat) : ContextManager :=
  {| cm_enter := __enter__ env fuel; cm_exit := __exit__ env |}.

(** ** Vocabulary of the statements *)

(** The path of the marker file. *)
Definition marker (w : state) : string := _filename (self w).

(** The state [n] system calls later, when only the environment acts. *)
Fixpoint after (env : environment) (n : nat) (w : state) : state :=
  match n with
  | O => w
  | S n' => interfere env (after env n' w)
  end.

(** Before call number [n] no other process changes what is at [path]. *)
Definition leaves_alone (env : environment) (path : string) (n : nat) : Prop :=
  forall σ, meddle (env n) σ !! path = σ !! path.

(** Call number [n] does not fail, whatever call it is. *)
Definition goes_through (env : environment) (n : nat) : Prop :=
  forall c, fault (env n) c = None.

(** [w] with one more line in the log. *)
Definition logged (entry : string * string) (w : state) : state :=
  snd (Logger_log (fst entry) (snd entry) w).

(** The two lines the guard logs at "error" severity. *)
Definition create_failed (w : state) : string * string :=
  ("e", "Could not create lock file [" ++ marker w ++ "]").

Definition delete_failed (w : state) : string * string :=
  ("e", "Could not delete lock file [" ++ marker w ++ "]").

(** An exception that some [os.stat] call of the environment reported. *)
Definition stat_reported (env : environment) (e : exn) : Prop :=
  exists c n, e = OSError c /\ fault (env n) sys_stat = Some c.

(** [k] polling intervals, in seconds. *)
Definition tenths (k : nat) : Q := inject_Z (Z.of_nat k) * (1 # 10).


(** Where the loop stands after logging and sleeping in state [w]: the
    state in which it reads the clock again. *)
Definition slept (env : environment) (w : state) : state :=
  snd (time_sleep env (1 # 10) (logged ("d", _wait_msg (self w)) w)).

(** [__enter__] from a poll on: what is left of the loop, with [now] as
    the clock was read last, then the creation of the marker. *)
Definition enter_from (env : environment) (fuel : nat) (now : Q) : M unit :=
  try_except (wait_loop env fuel now) gone_is_fine ≫= fun _ => _createLockFile env.

(** [m] leaves the instance attributes and the process id as they are. *)
Definition keeps_self {A} (m : M A) : Prop :=
  forall w, self (snd (m w)) = self w /\ pid (snd (m w)) = pid w.

(** ** Scenarios *)

(** A guard on "a.lock" with the default settings, in process 4242, at
    second 100. *)
Definition a_lock : LockFile := __init__ "a.lock" None None.

Definition start (σ : gmap string file) : state :=
  {| self := a_lock; fs := σ; clock := 100; log := []; pid := 4242; tick := 0 |}.

(** No marker yet. *)
Definition free : state := start ∅.

(** Process 1234 wrote the marker at second [t]. *)
Definition held_since (t : Q) : state :=
  start {[ "a.lock" := File "1234" t ]}.




(** Call number [n] fails with [c]; nothing else happens. *)
Definition failing_at (n : nat) (c : errno) : environment := fun k =>
  if (k =? n)%nat
  then {| elapsed := 0; meddle := fun σ => σ; fault := fun _ => Some c |}
  else idle.

(** Another process removes [path] just before call number [n]. *)
Definition released_at (n : nat) (path : string) : environment := fun k =>
  if (k =? n)%nat
  then {| elapsed := 0; meddle := delete path; fault := fun _ => None |}
  else idle.

(** The marker of process 1234, eighty seconds old, next to a file that is
    none of the guard's business. *)
Definition shared_dir : state :=
  start (<[ "notes.txt" := File "keep" 7 ]> {[ "a.lock" := File "1234" 20 ]}).

(** Another process writes [theirs] at [path] just before call number 2 and
    removes [path] just before call number 4. *)
Definition racing (path : string) (theirs : file) : environment := fun k =>
  if (k =? 2)%nat
  then {| elapsed := 0; meddle := insert path theirs; fault := fun _ => None |}
  else if (k =? 4)%nat
  then {| elapsed := 0; meddle := delete path; fault := fun _ => None |}
  else idle.

(** Two file systems with the same files at the same paths with the same
    time stamps; what the files hold may differ. *)
Definition same_stamps (σ1 σ2 : gmap string file) : Prop :=
  forall p, mtime <$> (σ1 !! p) = mtime <$> (σ2 !! p).

(** Two states that differ at most in what their files hold and in the
    process id. *)
Definition alike (w1 w2 : state) : Prop :=
  self w1 = self w2 /\ clock w1 = clock w2 /\ log w1 = log w2 /\
  tick w1 = tick w2 /\ same_stamps (fs w1) (fs w2).

(** What the other processes do does not depend on what files hold. *)
Definition content_blind (env : environment) : Prop :=
  forall n σ1 σ2, same_stamps σ1 σ2 -> same_stamps (meddle (env n) σ1) (meddle (env n) σ2).

(** The marker written at second [t], holding [text]. *)
Definition held_with (text : string) (t : Q) : state :=
  start {[ "a.lock" := File text t ]}.

(** * Proofs *)

(** ** Doubles *)

Open Scope Q_scope.

(** *** Powers of two *)










(** *** The binary logarithm *)









(** *** Rounding to the nearest integer, ties to even *)






(** *** Rounding to 53 bits *)



















(** *** Rounding of either sign *)









(** *** Comparisons *)

Lemma Qltb_lt (x y : Q) : Qltb x y = true <-> (x < y)%Q.
Proof. unfold Qltb, Qlt. apply Z.ltb_lt. Qed.




(** *** The largest double *)







(** *** Time stamps as Python reads them *)






(** *** Comparing with a float sum *)







(** *** Converting the timeout *)






(** *** Some doubles

    The values Python prints: [0.1] and [125.7] as exact fractions; the sum
    [125.7 + 10], which is the double [135.7] although the exact sum of
    the two doubles is larger; an odd integer above 2^53; the tie between
    the two smallest subnormal numbers; and the largest [int] that
    converts, next to the smallest that does not. *)
Example some_doubles :
  binary64 (1 # 10) == 3602879701896397 # 36028797018963968 /\
  binary64 (1257 # 10) == 8845351143132365 # 70368744177664 /\
  binary64 (binary64 (1257 # 10) + 10) == binary64 (1357 # 10) /\
  binary64 (1357 # 10) < binary64 (1257 # 10) + 10 /\
  float_lt (binary64 (1357 # 10)) (float_add (binary64 (1257 # 10)) 10) = false /\
  binary64 (inject_Z (2 ^ 53 + 1)) == inject_Z (2 ^ 53) /\
  binary64 (3 # 2 ^ 1075) == 2 # 2 ^ 1074 /\
  float_of_int (2 ^ 1024 - 2 ^ 970 - 1) = Some DBL_MAX /\
  float_of_int (2 ^ 1024 - 2 ^ 970) = None /\
  float_of_int (10 ^ 400) = None /\
  float_of_int (- (10 ^ 400)) = None.
Proof. repeat split; vm_compute; reflexivity. Qed.

Close Scope Q_scope.

(** ** The monad *)

Lemma bind_Return {A B} (m : M A) (k : A -> M B) w a w' :
  m w = (Return a, w') -> (m ≫= k) w = k a w'.
Proof. intros H. unfold mbind, M_bind. now rewrite H. Qed.

Ltac run :=
  unfold mbind, M_bind, mret, M_ret, try_except, raise, spinning, get_self,
    gone_is_fine in *;
  cbn beta iota zeta in *.

(** ** The attributes are never assigned after construction *)

Lemma keeps_self_ret {A} (a : A) : keeps_self (mret a).
Proof. now intros w. Qed.

Lemma keeps_self_bind {A B} (m : M A) (k : A -> M B) :
  keeps_self m -> (forall a, keeps_self (k a)) -> keeps_self (m ≫= k).
Proof.
  intros Hm Hk w. run. specialize (Hm w).
  destruct (m w) as [[a | e | ] w1]; cbn in *; try assumption.
  destruct Hm as [<- <-]. apply Hk.
Qed.

Lemma keeps_self_try {A} (m : M A) (h : exn -> option (M A)) :
  keeps_self m -> (forall e k, h e = Some k -> keeps_self k) ->
  keeps_self (try_except m h).
Proof.
  intros Hm Hh w. run. specialize (Hm w).
  destruct (m w) as [[a | e | ] w1]; cbn in *; try assumption.
  destruct (h e) as [k | ] eqn:E; cbn; try assumption.
  destruct Hm as [<- <-]. apply (Hh e k E).
Qed.

Lemma keeps_self_os_stat env path : keeps_self (os_stat env path).
Proof.
  intros w. unfold os_stat.
  destruct (failing env sys_stat w); [now split | ].
  now destruct (fs (interfere env w) !! path).
Qed.

Lemma keeps_self_time_time env : keeps_self (time_time env).
Proof. now intros w. Qed.

Lemma keeps_self_time_sleep env secs : keeps_self (time_sleep env secs).
Proof. now intros w. Qed.

Lemma keeps_self_Logger_log sev msg : keeps_self (Logger_log sev msg).
Proof. now intros w. Qed.

Lemma keeps_self_get_self : keeps_self get_self.
Proof. now intros w. Qed.

Lemma keeps_self_os_getpid : keeps_self os_getpid.
Proof. now intros w. Qed.

Lemma keeps_self_open_w env path : keeps_self (open_w env path).
Proof. intros w. unfold open_w. now destruct (failing env sys_open w). Qed.

Lemma keeps_self_file_write env h text : keeps_self (file_write env h text).
Proof.
  intros w. unfold file_write.
  destruct (failing env sys_write w); [now split | ].
  now destruct (fs (interfere env w) !! h).
Qed.

Lemma keeps_self_os_remove env path : keeps_self (os_remove env path).
Proof.
  intros w. unfold os_remove.
  destruct (failing env sys_unlink w); [now split | ].
  now destruct (fs (interfere env w) !! path).
Qed.

Lemma keeps_self_float_add_int x n : keeps_self (float_add_int x n).
Proof. intros w. unfold float_add_int. now destruct (float_of_int n). Qed.

Lemma keeps_self_os_path_exists env path : keeps_self (os_path_exists env path).
Proof.
  unfold os_path_exists. apply keeps_self_try.
  - apply keeps_self_bind; [apply keeps_self_os_stat | intros; apply keeps_self_ret].
  - intros e k. destruct (is_OSError e); [ | discriminate].
    intros [= <-]. apply keeps_self_ret.
Qed.

Lemma keeps_self_os_path_getmtime env path : keeps_self (os_path_getmtime env path).
Proof.
  unfold os_path_getmtime.
  apply keeps_self_bind; [apply keeps_self_os_stat | intros; apply keeps_self_ret].
Qed.

Create HintDb frame.
#[export] Hint Resolve keeps_self_ret keeps_self_os_stat keeps_self_time_time
  keeps_self_time_sleep keeps_self_Logger_log keeps_self_get_self
  keeps_self_os_getpid keeps_self_open_w keeps_self_file_write
  keeps_self_os_remove keeps_self_os_path_exists keeps_self_os_path_getmtime
  keeps_self_float_add_int : frame.

Ltac frame :=
  repeat first
    [ apply keeps_self_bind; [ | intros ? ]
    | apply keeps_self_try; [ | intros ? ? ]
    | match goal with |- keeps_self (if ?b then _ else _) => destruct b end
    | match goal with
      | |- (if ?b then _ else _) = Some _ -> _ => destruct b; intros [= <-]
      | |- Some _ = Some _ -> _ => intros [= <-]
      | |- None = Some _ -> _ => discriminate
      end
    | solve [ auto with frame ] ].

Lemma keeps_self_wait_condition env now : keeps_self (wait_condition env now).
Proof. unfold wait_condition. frame. Qed.

Lemma keeps_self_wait_loop env fuel : forall now, keeps_self (wait_loop env fuel now).
Proof.
  induction fuel as [ | fuel IH]; intros now; cbn [wait_loop].
  - now intros w.
  - apply keeps_self_bind; [apply keeps_self_wait_condition | intros go_on ].
    destruct go_on; [ | apply keeps_self_ret].
    frame.
Qed.

Lemma keeps_self__waitLockFileDisappear env fuel :
  keeps_self (_waitLockFileDisappear env fuel).
Proof.
  unfold _waitLockFileDisappear.
  apply keeps_self_bind; [apply keeps_self_time_time | intros now].
  apply keeps_self_try; [apply keeps_self_wait_loop | ].
  intros e k. unfold gone_is_fine. destruct (is_FileNotFoundError e); [ | discriminate].
  intros [= <-]. apply keeps_self_ret.
Qed.

Lemma keeps_self__createLockFile env : keeps_self (_createLockFile env).
Proof. unfold _createLockFile. frame. Qed.

Lemma keeps_self__deleteLockFile env : keeps_self (_deleteLockFile env).
Proof. unfold _deleteLockFile. frame. Qed.

Lemma keeps_self___enter__ env fuel : keeps_self (__enter__ env fuel).
Proof.
  unfold __enter__. apply keeps_self_bind.
  - apply keeps_self__waitLockFileDisappear.
  - intros _. apply keeps_self__createLockFile.
Qed.

Lemma keeps_self___exit__ env exc : keeps_self (__exit__ env exc).
Proof.
  unfold __exit__. apply keeps_self_bind.
  - apply keeps_self__deleteLockFile.
  - intros _. apply keeps_self_ret.
Qed.

(** ** What each method does, call by call *)

Arguments interfere : simpl never.
Arguments timestamp : simpl never.
Arguments binary64 : simpl never.
Arguments two_pow : simpl never.
Arguments float_of_int : simpl never.
Arguments float_add : simpl never.
Arguments st_mtime : simpl never.

Lemma self_interfere env w : self (interfere env w) = self w.
Proof. reflexivity. Qed.

Lemma log_interfere env w : log (interfere env w) = log w.
Proof. reflexivity. Qed.

Lemma tick_interfere env w : tick (interfere env w) = S (tick w).
Proof. reflexivity. Qed.

Lemma tick_after env n w : tick (after env n w) = (n + tick w)%nat.
Proof.
  induction n as [ | n IH]; [reflexivity | ].
  cbn [after]. rewrite tick_interfere, IH. reflexivity.
Qed.

Lemma self_after env n w : self (after env n w) = self w.
Proof. induction n as [ | n IH]; [reflexivity | now cbn [after]]. Qed.

Lemma log_after env n w : log (after env n w) = log w.
Proof. induction n as [ | n IH]; [reflexivity | now cbn [after]]. Qed.

Lemma pid_after env n w : pid (after env n w) = pid w.
Proof. induction n as [ | n IH]; [reflexivity | now cbn [after]]. Qed.

Lemma marker_after env n w : marker (after env n w) = marker w.
Proof. unfold marker. now rewrite self_after. Qed.

(** [leaves_alone] at the call that takes [w] to [interfere env w]. *)
Lemma fs_interfere env path w :
  leaves_alone env path (tick w) ->
  fs (interfere env w) !! path = fs w !! path.
Proof. intros H. apply H. Qed.

(** One evaluation of the loop condition. *)
Lemma wait_condition_calls env now w :
  wait_condition env now w =
  let w1 := after env 1 w in
  let w2 := after env 2 w in
  let w3 := after env 3 w in
  match failing env sys_stat w, fs w1 !! marker w with
  | None, Some _ =>
      match failing env sys_stat w1, fs w2 !! marker w with
      | Some c, _ => (Raise (OSError c), w2)
      | None, None => (Raise FileNotFoundError, w2)
      | None, Some f1 =>
          match float_of_int (_timeout (self w)) with
          | None => (Raise OverflowError, w2)
          | Some t =>
              if float_lt now (float_add (st_mtime f1) t) then
                match failing env sys_stat w2, fs w3 !! marker w with
                | Some c, _ => (Raise (OSError c), w3)
                | None, None => (Raise FileNotFoundError, w3)
                | None, Some f2 => (Return (Qltb (st_mtime f2) now), w3)
                end
              else (Return false, w2)
          end
      end
  | _, _ => (Return false, w1)
  end.
Proof.
  unfold wait_condition, os_path_exists, os_path_getmtime, os_stat, float_add_int, marker.
  run. cbn [after].
  destruct (failing env sys_stat w); cbn; [reflexivity | ].
  destruct (fs (interfere env w) !! _filename (self w)); cbn; [ | reflexivity].
  destruct (failing env sys_stat (interfere env w)); cbn; [reflexivity | ].
  destruct (fs (interfere env (interfere env w)) !! _filename (self w)) as [f1 | ];
    cbn; [ | reflexivity].
  destruct (float_of_int (_timeout (self w))) as [t | ]; cbn; [ | reflexivity].
  destruct (float_lt now (float_add (st_mtime f1) t)); cbn; [ | reflexivity].
  destruct (failing env sys_stat (interfere env (interfere env w))); cbn; [reflexivity | ].
  now destruct (fs (interfere env (interfere env (interfere env w))) !! _filename (self w)).
Qed.

(** One turn of the loop: the message, the sleep, and the clock read
    again for the next poll. *)
Lemma wait_loop_turn env fuel now w :
  wait_loop env (S fuel) now w =
  match wait_condition env now w with
  | (Return true, w') =>
      wait_loop env fuel (timestamp (clock (interfere env (slept env w'))))
        (interfere env (slept env w'))
  | (Return false, w') => (Return tt, w')
  | (Raise e, w') => (Raise e, w')
  | (StillWaiting, w') => (StillWaiting, w')
  end.
Proof.
  cbn [wait_loop]. run.
  destruct (wait_condition env now w) as [[[ | ] | e | ] w']; reflexivity.
Qed.

Lemma _createLockFile_calls env w :
  _createLockFile env w =
  let w1 := after env 1 w in
  let opened := put_file (marker w) (File "" (clock w1)) w1 in
  let w2 := interfere env opened in
  match failing env sys_open w with
  | Some _ => (Return tt, logged (create_failed w) w1)
  | None =>
      match failing env sys_write opened, fs w2 !! marker w with
      | Some _, _ => (Return tt, logged (create_failed w) w2)
      | None, Some _ =>
          (Return tt, put_file (marker w) (File (pretty (pid w)) (clock w2)) w2)
      | None, None => (Return tt, w2)
      end
  end.
Proof.
  unfold _createLockFile, open_w, file_write, os_getpid, create_failed, marker.
  run. cbn [after].
  destruct (failing env sys_open w); cbn; [reflexivity | ].
  match goal with |- context [failing env sys_write ?o] =>
    destruct (failing env sys_write o) end; cbn; [reflexivity | ].
  match goal with |- context [fs ?s !! ?p] => destruct (fs s !! p) end; reflexivity.
Qed.

Lemma _deleteLockFile_calls env w :
  _deleteLockFile env w =
  let w1 := after env 1 w in
  match failing env sys_unlink w, fs w1 !! marker w with
  | Some c, _ =>
      if errno_eqb c ENOENT then (Return tt, w1)
      else (Return tt, logged (delete_failed w) w1)
  | None, Some _ => (Return tt, drop_file (marker w) w1)
  | None, None => (Return tt, w1)
  end.
Proof.
  unfold _deleteLockFile, os_remove, delete_failed, marker.
  run. cbn [after].
  destruct (failing env sys_unlink w) as [c | ]; cbn.
  - now destruct (errno_eqb c ENOENT).
  - now destruct (fs (interfere env w) !! _filename (self w)).
Qed.

(** ** Construction and configuration *)

(** C9: constructing the guard with only a path gives a timeout of 10
    seconds and the wait message "Waiting for lock file to disappear...";
    arguments that are given are stored as they are; and no method
    ([_waitLockFileDisappear], [_createLockFile], [_deleteLockFile],
    [__enter__], [__exit__]) changes the attributes, in any environment. *)
Theorem C9_defaults_and_fixed_configuration :
  (forall filename,
      _filename (__init__ filename None None) = filename /\
      _timeout (__init__ filename None None) = 10%Z /\
      _wait_msg (__init__ filename None None)
        = "Waiting for lock file to disappear...") /\
  (forall filename t msg,
      __init__ filename (Some t) (Some msg)
        = {| _filename := filename; _wait_msg := msg; _timeout := t |}) /\
  (forall env fuel exc w,
      self (snd (_waitLockFileDisappear env fuel w)) = self w /\
      self (snd (_createLockFile env w)) = self w /\
      self (snd (_deleteLockFile env w)) = self w /\
      self (snd (__enter__ env fuel w)) = self w /\
      self (snd (__exit__ env exc w)) = self w).
Proof.
  split; [ | split].
  - intros filename. repeat split.
  - reflexivity.
  - intros env fuel exc w. repeat split.
    + apply keeps_self__waitLockFileDisappear.
    + apply keeps_self__createLockFile.
    + apply keeps_self__deleteLockFile.
    + apply keeps_self___enter__.
    + apply keeps_self___exit__.
Qed.

(** ** Release *)

Lemma __exit___calls env exc w :
  __exit__ env exc w = (Return None, snd (_deleteLockFile env w)).
Proof.
  unfold __exit__. run. rewrite _deleteLockFile_calls. cbn zeta.
  destruct (failing env sys_unlink w) as [c | ].
  - now destruct (errno_eqb c ENOENT).
  - now destruct (fs (after env 1 w) !! marker w).
Qed.

Lemma errno_eqb_eq a b : errno_eqb a b = true <-> a = b.
Proof. destruct a, b; cbn; split; congruence. Qed.

Lemma errno_eqb_neq a b : errno_eqb a b = false <-> a <> b.
Proof. destruct a, b; cbn; split; congruence. Qed.

(** C7: [__exit__] returns normally whatever [os.remove] does.  With
    [found] the state the call finds (after whatever other processes did):
    if the marker is absent, or the call reports file-not-found, nothing is
    logged and the file system stays as found; if the call fails with any
    other error, one line is logged at severity "e" and the file system stays
    as found; otherwise the marker is removed and nothing is logged. *)
Theorem C7_release_never_raises env exc w :
  let found := after env 1 w in
  let done := snd (__exit__ env exc w) in
  fst (__exit__ env exc w) = Return None /\
  (failing env sys_unlink w = None -> fs found !! marker w = None ->
     log done = log w /\ fs done = fs found) /\
  (failing env sys_unlink w = Some ENOENT ->
     log done = log w /\ fs done = fs found) /\
  (forall c, failing env sys_unlink w = Some c -> c <> ENOENT ->
     log done
       = (log w ++
          [("e", ("Could not delete lock file [" ++ marker w ++ "]")%string)])%list /\
     fs done = fs found) /\
  (failing env sys_unlink w = None -> is_Some (fs found !! marker w) ->
     log done = log w /\ fs done = delete (marker w) (fs found)).
Proof.
  cbn zeta. rewrite __exit___calls, _deleteLockFile_calls. cbn [fst snd].
  split; [reflexivity | ].
  split; [intros -> ->; now split | ].
  split; [intros ->; now split | ].
  split.
  - intros c H Hc. rewrite H. apply errno_eqb_neq in Hc. rewrite Hc. now split.
  - intros -> [f ->]. now split.
Qed.

Lemma C7_release_never_raises_witness :
  fst (__exit__ (failing_at 0 EACCES) None (held_since 99)) = Return None /\
  log (snd (__exit__ (failing_at 0 EACCES) None (held_since 99)))
    = [("e", "Could not delete lock file [a.lock]")] /\
  fst (__exit__ alone None free) = Return None /\
  log (snd (__exit__ alone None free)) = [] /\
  fs (snd (__exit__ alone None free)) = ∅.
Proof.
  destruct (C7_release_never_raises (failing_at 0 EACCES) None (held_since 99))
    as (R1 & _ & _ & E1 & _).
  destruct (C7_release_never_raises alone None free) as (R2 & A2 & _).
  split; [exact R1 | ].
  split; [apply (E1 EACCES); [reflexivity | discriminate] | ].
  split; [exact R2 | ].
  apply A2; reflexivity.
Defined.

(** ** Creating the marker *)

Lemma lookup_put_file path f w : fs (put_file path f w) !! path = Some f.
Proof. unfold put_file. cbn [fs]. apply lookup_insert_eq. Qed.

Lemma _createLockFile_returns env w : fst (_createLockFile env w) = Return tt.
Proof.
  rewrite _createLockFile_calls. cbn zeta.
  destruct (failing env sys_open w); [reflexivity | ].
  match goal with |- context [failing env sys_write ?o] =>
    destruct (failing env sys_write o) end; [reflexivity | ].
  match goal with |- context [fs ?s !! ?p] => destruct (fs s !! p) end; reflexivity.
Qed.

(** [__enter__] as its two steps. *)
Lemma __enter___steps env fuel w :
  __enter__ env fuel w =
  match _waitLockFileDisappear env fuel w with
  | (Return _, w1) => _createLockFile env w1
  | (Raise e, w1) => (Raise e, w1)
  | (StillWaiting, w1) => (StillWaiting, w1)
  end.
Proof. reflexivity. Qed.

(** The four ways [_createLockFile] can go, by what [open] and [write] do
    and by what is at the path when the write is made. *)
Lemma _createLockFile_cases env w :
  let done := snd (_createLockFile env w) in
  (failing env sys_open w = None -> fault (env (S (tick w))) sys_write = None ->
   leaves_alone env (marker w) (S (tick w)) ->
     (exists t, fs done !! marker w = Some (File (pretty (pid w)) t)) /\
     log done = log w) /\
  (forall c, failing env sys_open w = Some c ->
     log done = (log w ++ [create_failed w])%list /\ fs done = fs (after env 1 w)) /\
  (forall c, failing env sys_open w = None ->
     fault (env (S (tick w))) sys_write = Some c ->
     log done = (log w ++ [create_failed w])%list) /\
  (failing env sys_open w = None -> fault (env (S (tick w))) sys_write = None ->
   (forall σ, meddle (env (S (tick w))) σ !! marker w = None) ->
     fs done !! marker w = None /\ log done = log w).
Proof.
  cbn zeta. rewrite _createLockFile_calls. cbn zeta.
  set (opened := put_file (marker w) (File "" (clock (after env 1 w))) (after env 1 w)).
  assert (Htick : tick opened = S (tick w)) by reflexivity.
  assert (Hlog : log (interfere env opened) = log w).
  { rewrite log_interfere. unfold opened. cbn [put_file log]. apply log_after. }
  split; [ | split; [ | split] ].
  - intros Hopen Hwrite Hquiet. rewrite Hopen. unfold failing. rewrite Htick, Hwrite.
    assert (Hthere : fs (interfere env opened) !! marker w
                     = Some (File "" (clock (after env 1 w)))).
    { rewrite fs_interfere by (rewrite Htick; exact Hquiet). apply lookup_put_file. }
    rewrite Hthere. cbn [snd].
    split; [eexists; apply lookup_put_file | exact Hlog].
  - intros c Hopen. rewrite Hopen. cbn [snd]. split; [ | reflexivity].
    unfold logged. cbn [snd fst Logger_log log]. now rewrite log_after.
  - intros c Hopen Hwrite. rewrite Hopen. unfold failing. rewrite Htick, Hwrite.
    cbn [snd]. unfold logged. cbn [snd fst Logger_log log]. now rewrite Hlog.
  - intros Hopen Hwrite Hgone. rewrite Hopen. unfold failing. rewrite Htick, Hwrite.
    assert (E : fs (interfere env opened) !! marker w = None).
    { change (fs (interfere env opened)) with (meddle (env (tick opened)) (fs opened)).
      rewrite Htick. apply Hgone. }
    rewrite E. cbn [snd]. split; [exact E | exact Hlog].
Qed.

(** C6, as stated, fails: there is no marker, so the wait is over at once;
    [open] creates the marker; another process unlinks it before the
    [write], which goes to the orphaned file and succeeds.  [__enter__]
    returns normally with no marker at the path and nothing logged. *)
Lemma C6_marker_unlinked_before_the_write :
  fst (__enter__ (released_at 3 "a.lock") 1 free) = Return tt /\
  fs (snd (__enter__ (released_at 3 "a.lock") 1 free)) !! "a.lock" = None /\
  log (snd (__enter__ (released_at 3 "a.lock") 1 free)) = [].
Proof. vm_compute. repeat split. Qed.

(** C6, amended: once the wait loop is over, [__enter__] returns normally
    whatever [open] and [write] do.  If both go through and no other
    process touches the marker between them, the marker exists and holds
    the decimal text of the process id, and the creation logs nothing.  If
    creating it failed ([open] raised, or [write] raised), the line
    ("e", "Could not create lock file [<path>]") is logged, and after a
    failed [open] the file system is as the call found it.  If another
    process unlinks the marker between the two calls, there is no marker
    afterwards and nothing is logged. *)
Theorem C6_acquire_postcondition env fuel w w1 :
  _waitLockFileDisappear env fuel w = (Return tt, w1) ->
  let done := snd (__enter__ env fuel w) in
  fst (__enter__ env fuel w) = Return tt /\
  (failing env sys_open w1 = None -> fault (env (S (tick w1))) sys_write = None ->
   leaves_alone env (marker w) (S (tick w1)) ->
     (exists t, fs done !! marker w = Some (File (pretty (pid w)) t)) /\
     log done = log w1) /\
  (forall c, failing env sys_open w1 = Some c ->
     log done
       = (log w1 ++
            [("e", ("Could not create lock file [" ++ marker w ++ "]")%string)])%list /\
     fs done = fs (after env 1 w1)) /\
  (forall c, failing env sys_open w1 = None ->
     fault (env (S (tick w1))) sys_write = Some c ->
     log done
       = (log w1 ++
            [("e", ("Could not create lock file [" ++ marker w ++ "]")%string)])%list) /\
  (failing env sys_open w1 = None -> fault (env (S (tick w1))) sys_write = None ->
   (forall σ, meddle (env (S (tick w1))) σ !! marker w = None) ->
     fs done !! marker w = None /\ log done = log w1).
Proof.
  intros Hwait. cbn zeta.
  destruct (keeps_self__waitLockFileDisappear env fuel w) as [Hself Hpid].
  rewrite Hwait in Hself, Hpid. cbn [snd] in Hself, Hpid.
  assert (Hm : marker w1 = marker w) by (unfold marker; now rewrite Hself).
  rewrite __enter___steps, Hwait.
  pose proof (_createLockFile_cases env w1) as Hcases. cbn zeta in Hcases.
  unfold create_failed in Hcases. rewrite Hm, Hpid in Hcases.
  split; [apply _createLockFile_returns | exact Hcases].
Qed.

Lemma C6_acquire_postcondition_witness :
  fst (__enter__ alone 1 free) = Return tt /\
  (exists t, fs (snd (__enter__ alone 1 free)) !! "a.lock" = Some (File "4242" t)) /\
  log (snd (__enter__ alone 1 free)) = [] /\
  fst (__enter__ (failing_at 2 EACCES) 1 free) = Return tt /\
  log (snd (__enter__ (failing_at 2 EACCES) 1 free))
    = [("e", "Could not create lock file [a.lock]")] /\
  fs (snd (__enter__ (failing_at 2 EACCES) 1 free)) !! "a.lock" = None.
Proof.
  destruct (C6_acquire_postcondition alone 1 free (after alone 2 free) eq_refl)
    as (R1 & Made & _).
  destruct (C6_acquire_postcondition (failing_at 2 EACCES) 1 free
              (after (failing_at 2 EACCES) 2 free) eq_refl)
    as (R2 & _ & Failed & _).
  destruct Made as [Hpid Hlog]; [reflexivity | reflexivity | intros σ; reflexivity | ].
  destruct (Failed EACCES eq_refl) as [Hlog' Hfs].
  split; [exact R1 | split; [exact Hpid | split; [exact Hlog | ] ] ].
  split; [exact R2 | split; [exact Hlog' | now rewrite Hfs] ].
Defined.

(** ** The happy path *)

(** [os.path.exists] when the call goes through and other processes leave
    the path alone. *)
Lemma os_path_exists_quiet env path w :
  goes_through env (tick w) -> leaves_alone env path (tick w) ->
  fst (os_path_exists env path w)
  = Return (match fs w !! path with Some _ => true | None => false end).
Proof.
  intros Hgo Hquiet. unfold os_path_exists, os_stat, failing. run.
  rewrite Hgo, fs_interfere by exact Hquiet.
  now destruct (fs w !! path).
Qed.

(** C8: starting with no marker at the guard's path and nobody else
    interfering (the calls from the first clock read to the unlink, and the
    one after it, go through and other processes leave the path alone),
    [os.path.exists] is false before [__enter__]; [__enter__] returns with
    the marker present, holding the decimal text of the process id, and
    [os.path.exists] is true; [__exit__] then returns with the marker absent
    and [os.path.exists] is false again. *)
Theorem C8_happy_path env fuel w :
  fs w !! marker w = None ->
  (forall n, tick w <= n < tick w + 6 ->
     goes_through env n /\ leaves_alone env (marker w) n) ->
  let acquired := __enter__ env (S fuel) w in
  let released := __exit__ env None (snd acquired) in
  fst (os_path_exists env (marker w) w) = Return false /\
  fst acquired = Return tt /\
  (exists t, fs (snd acquired) !! marker w = Some (File (pretty (pid w)) t)) /\
  fst (os_path_exists env (marker w) (snd acquired)) = Return true /\
  fst released = Return None /\
  fs (snd released) !! marker w = None /\
  fst (os_path_exists env (marker w) (snd released)) = Return false.
Proof.
  intros Hfree Hquiet. cbn zeta.
  assert (Hf : forall k, k < 6 -> forall c, fault (env (k + tick w)) c = None).
  { intros k Hk. apply Hquiet. lia. }
  assert (Ha : forall k, k < 6 -> leaves_alone env (marker w) (k + tick w)).
  { intros k Hk. apply Hquiet. lia. }
  split.
  { rewrite os_path_exists_quiet, Hfree; [reflexivity | exact (Hf 0 ltac:(lia)) | exact (Ha 0 ltac:(lia))]. }
  (* the wait: one clock read, one existence check *)
  assert (Hwait : _waitLockFileDisappear env (S fuel) w = (Return tt, after env 2 w)).
  { unfold _waitLockFileDisappear, time_time. run.
    change (interfere env w) with (after env 1 w).
    rewrite wait_loop_turn, wait_condition_calls. cbn zeta.
    unfold failing. rewrite tick_after, (Hf 1) by lia.
    rewrite marker_after.
    change (after env 1 (after env 1 w)) with (after env 2 w).
    assert (E : fs (after env 2 w) !! marker w = None).
    { cbn [after]. rewrite fs_interfere by (apply (Ha 1); lia).
      rewrite fs_interfere by (apply (Ha 0); lia). exact Hfree. }
    rewrite E. reflexivity. }
  (* the creation: open, then write *)
  set (opened := put_file (marker w) (File "" (clock (after env 3 w))) (after env 3 w)).
  set (held := put_file (marker w) (File (pretty (pid w)) (clock (interfere env opened)))
                 (interfere env opened)).
  assert (Htick : tick opened = 3 + tick w).
  { unfold opened. cbn [put_file tick]. apply tick_after. }
  assert (Hcreate : _createLockFile env (after env 2 w) = (Return tt, held)).
  { rewrite _createLockFile_calls. cbn zeta.
    rewrite marker_after, pid_after.
    change (after env 1 (after env 2 w)) with (after env 3 w). fold opened.
    unfold failing. rewrite tick_after, (Hf 2), Htick, (Hf 3) by lia.
    rewrite fs_interfere by (rewrite Htick; apply (Ha 3); lia).
    unfold opened at 1. rewrite lookup_put_file. reflexivity. }
  assert (Henter : __enter__ env (S fuel) w = (Return tt, held)).
  { unfold __enter__. rewrite (bind_Return _ _ _ _ _ Hwait). exact Hcreate. }
  assert (Hheld : tick held = 4 + tick w).
  { unfold held. cbn [put_file tick]. rewrite tick_interfere, Htick. reflexivity. }
  assert (Hthere : fs held !! marker w
                   = Some (File (pretty (pid w)) (clock (interfere env opened)))).
  { apply lookup_put_file. }
  rewrite Henter. cbn [fst snd].
  split; [reflexivity | ].
  split; [eexists; exact Hthere | ].
  split.
  { rewrite os_path_exists_quiet, Hthere; rewrite ?Hheld;
      [reflexivity | exact (Hf 4 ltac:(lia)) | exact (Ha 4 ltac:(lia))]. }
  (* the removal *)
  assert (Hexit : snd (_deleteLockFile env held)
                  = drop_file (marker w) (after env 1 held)).
  { rewrite _deleteLockFile_calls. cbn zeta.
    assert (Hmark : marker held = marker w) by reflexivity.
    unfold failing. rewrite Hheld, (Hf 4), Hmark by lia.
    assert (E : fs (after env 1 held) !! marker w
                = Some (File (pretty (pid w)) (clock (interfere env opened)))).
    { cbn [after]. rewrite fs_interfere by (rewrite Hheld; apply (Ha 4); lia).
      exact Hthere. }
    rewrite E. reflexivity. }
  assert (Hgone : fs (drop_file (marker w) (after env 1 held)) !! marker w = None).
  { unfold drop_file. cbn [fs]. apply lookup_delete_eq. }
  rewrite __exit___calls. cbn [fst snd]. rewrite Hexit.
  split; [reflexivity | ].
  split; [exact Hgone | ].
  assert (Hlast : tick (drop_file (marker w) (after env 1 held)) = 5 + tick w).
  { cbn [drop_file tick after]. rewrite tick_interfere, Hheld. reflexivity. }
  rewrite os_path_exists_quiet, Hgone; rewrite ?Hlast;
    [reflexivity | exact (Hf 5 ltac:(lia)) | exact (Ha 5 ltac:(lia))].
Qed.

Lemma C8_happy_path_witness :
  fst (os_path_exists alone "a.lock" free) = Return false /\
  fst (__enter__ alone 1 free) = Return tt /\
  (exists t, fs (snd (__enter__ alone 1 free)) !! "a.lock" = Some (File "4242" t)) /\
  fst (os_path_exists alone "a.lock" (snd (__enter__ alone 1 free))) = Return true /\
  fst (__exit__ alone None (snd (__enter__ alone 1 free))) = Return None /\
  fs (snd (__exit__ alone None (snd (__enter__ alone 1 free)))) !! "a.lock" = None /\
  fst (os_path_exists alone "a.lock"
         (snd (__exit__ alone None (snd (__enter__ alone 1 free))))) = Return false.
Proof.
  apply (C8_happy_path alone 0 free).
  - reflexivity.
  - intros n _. split; [intros c | intros σ]; reflexivity.
Defined.

(** ** Leaving the guarded block *)

Lemma tick__deleteLockFile env w : tick (snd (_deleteLockFile env w)) = S (tick w).
Proof.
  rewrite _deleteLockFile_calls. cbn zeta.
  destruct (failing env sys_unlink w) as [c | ].
  - now destruct (errno_eqb c ENOENT).
  - now destruct (fs (after env 1 w) !! marker w).
Qed.

Lemma _deleteLockFile_removes env w :
  failing env sys_unlink w = None ->
  fs (snd (_deleteLockFile env w)) !! marker w = None.
Proof.
  intros Hok. rewrite _deleteLockFile_calls. cbn zeta. rewrite Hok.
  destruct (fs (after env 1 w) !! marker w) eqn:E; cbn [snd].
  - unfold drop_file. cbn [fs]. apply lookup_delete_eq.
  - exact E.
Qed.

(** C5: once [__enter__] has returned, whichever way the body ends (it
    completes, or it raises [e]) the [with] statement ends the same way:
    same result, same exception.  Its final state is the one a single call
    of [__exit__] makes of the state the body left: exactly one more system
    call (the [os.remove]), after which the marker is gone unless that call
    failed. *)
Theorem C5_scope_exit_releases_once env fuel (body : M unit) w w1 r w2 :
  __enter__ env fuel w = (Return tt, w1) ->
  body w1 = (r, w2) ->
  r = Return tt \/ (exists e, r = Raise e) ->
  let exc := match r with Raise e => Some e | _ => None end in
  let final := snd (__exit__ env exc w2) in
  with_stmt (LockFile_cm env fuel) body w = (r, final) /\
  tick final = S (tick w2) /\
  (failing env sys_unlink w2 = None -> fs final !! marker w2 = None).
Proof.
  intros Henter Hbody Hends. cbn zeta.
  rewrite !__exit___calls. cbn [snd].
  split; [ | split].
  - unfold with_stmt. rewrite (bind_Return _ _ _ _ _ Henter).
    unfold guarded. rewrite Hbody. cbn [cm_exit LockFile_cm].
    destruct Hends as [-> | [e ->]].
    + unfold mbind, M_bind. rewrite __exit___calls. reflexivity.
    + unfold mbind, M_bind. rewrite __exit___calls. reflexivity.
  - destruct r; apply tick__deleteLockFile.
  - intros Hok. destruct r; now apply _deleteLockFile_removes.
Qed.

Lemma C5_scope_exit_releases_once_witness :
  with_stmt (LockFile_cm alone 1) (raise (Exception "boom")) free
    = (Raise (Exception "boom"),
       snd (__exit__ alone (Some (Exception "boom")) (snd (__enter__ alone 1 free)))) /\
  tick (snd (__exit__ alone (Some (Exception "boom")) (snd (__enter__ alone 1 free))))
    = S (tick (snd (__enter__ alone 1 free))) /\
  fs (snd (__exit__ alone (Some (Exception "boom")) (snd (__enter__ alone 1 free))))
    !! "a.lock" = None.
Proof.
  destruct (C5_scope_exit_releases_once alone 1 (raise (Exception "boom")) free
              (snd (__enter__ alone 1 free)) (Raise (Exception "boom"))
              (snd (__enter__ alone 1 free)))
    as (H1 & H2 & H3).
  - reflexivity.
  - reflexivity.
  - right. exists (Exception "boom"). reflexivity.
  - split; [exact H1 | split; [exact H2 | ] ]. apply H3. reflexivity.
Defined.

(** ** What the wait loop can raise *)

(** An exception leaves a poll in one of three ways: the marker vanished
    before its time stamp was read; [os.stat] failed otherwise; or the
    timeout is too large to be added to a float. *)
Lemma wait_condition_raise env now w e w' :
  wait_condition env now w = (Raise e, w') ->
  e = FileNotFoundError \/ stat_reported env e \/
  (e = OverflowError /\ float_of_int (_timeout (self w)) = None).
Proof.
  rewrite wait_condition_calls. cbn zeta. unfold failing.
  destruct (fault (env (tick w)) sys_stat); [discriminate | ].
  destruct (fs (after env 1 w) !! marker w); [ | discriminate].
  destruct (fault (env (tick (after env 1 w))) sys_stat) as [c | ] eqn:F1.
  { intros [= <- <-]. right; left. now exists c, (tick (after env 1 w)). }
  destruct (fs (after env 2 w) !! marker w) as [f1 | ]; [ | intros [= <- <-]; now left].
  destruct (float_of_int (_timeout (self w))) as [t | ];
    [ | intros [= <- <-]; right; right; now split].
  destruct (float_lt now (float_add (st_mtime f1) t)); [ | discriminate].
  destruct (fault (env (tick (after env 2 w))) sys_stat) as [c | ] eqn:F2.
  { intros [= <- <-]. right; left. now exists c, (tick (after env 2 w)). }
  destruct (fs (after env 3 w) !! marker w); [discriminate | ].
  intros [= <- <-]. now left.
Qed.

Lemma self_wait_condition env now w : self (snd (wait_condition env now w)) = self w.
Proof. apply keeps_self_wait_condition. Qed.

Lemma self_slept env w : self (slept env w) = self w.
Proof. reflexivity. Qed.

Lemma wait_loop_raise env fuel : forall now w e w',
  wait_loop env fuel now w = (Raise e, w') ->
  e = FileNotFoundError \/ stat_reported env e \/
  (e = OverflowError /\ float_of_int (_timeout (self w)) = None).
Proof.
  induction fuel as [ | fuel IH]; intros now w e w'.
  - discriminate.
  - rewrite wait_loop_turn.
    pose proof (self_wait_condition env now w) as Hself.
    destruct (wait_condition env now w) as [[[ | ] | e0 | ] w0] eqn:C; cbn [snd] in Hself.
    + intros H. apply IH in H.
      now rewrite self_interfere, self_slept, Hself in H.
    + discriminate.
    + intros [= <- <-]. exact (wait_condition_raise _ _ _ _ _ C).
    + discriminate.
Qed.

(** Only a failure of [os.stat] other than file-not-found, or the
    conversion of the timeout, leaves the loop as an exception. *)
Lemma _waitLockFileDisappear_raise env fuel w e :
  fst (_waitLockFileDisappear env fuel w) = Raise e ->
  (exists c n, e = OSError c /\ c <> ENOENT /\ fault (env n) sys_stat = Some c) \/
  (e = OverflowError /\ float_of_int (_timeout (self w)) = None).
Proof.
  unfold _waitLockFileDisappear, time_time. run.
  destruct (wait_loop env fuel (timestamp (clock (interfere env w))) (interfere env w))
    as [[[] | e0 | ] w0] eqn:L; cbn [fst]; try discriminate.
  destruct (is_FileNotFoundError e0) eqn:N; cbn [fst]; [discriminate | ].
  intros [= <-].
  destruct (wait_loop_raise _ _ _ _ _ _ L) as [-> | [(c & n & -> & Hn) | [-> Hover] ] ].
  - discriminate.
  - left. exists c, n. repeat split; [ | exact Hn].
    intros ->. discriminate.
  - right. split; [reflexivity | exact Hover].
Qed.

Lemma __enter___raise env fuel w e :
  fst (__enter__ env fuel w) = Raise e ->
  fst (_waitLockFileDisappear env fuel w) = Raise e.
Proof.
  rewrite __enter___steps.
  destruct (_waitLockFileDisappear env fuel w) as [[[] | e0 | ] w0]; cbn [fst].
  - rewrite _createLockFile_returns. discriminate.
  - trivial.
  - discriminate.
Qed.

(** [__enter__] from its first poll on. *)
Lemma __enter___first_poll env fuel w :
  __enter__ env fuel w =
  enter_from env fuel (timestamp (clock (after env 1 w))) (after env 1 w).
Proof. reflexivity. Qed.

(** What [enter_from] does with what the loop does. *)
Lemma enter_from_steps env fuel now w :
  enter_from env fuel now w =
  match wait_loop env fuel now w with
  | (Return _, w') => _createLockFile env w'
  | (Raise e, w') =>
      if is_FileNotFoundError e then _createLockFile env w' else (Raise e, w')
  | (StillWaiting, w') => (StillWaiting, w')
  end.
Proof.
  unfold enter_from. run.
  destruct (wait_loop env fuel now w) as [[[] | e | ] w']; try reflexivity.
  now destruct (is_FileNotFoundError e).
Qed.

(** A poll that goes round hands over to the next poll. *)
Lemma enter_from_turn env fuel now w w' :
  wait_condition env now w = (Return true, w') ->
  enter_from env (S fuel) now w
  = enter_from env fuel (timestamp (clock (interfere env (slept env w'))))
      (interfere env (slept env w')).
Proof. intros H. rewrite !enter_from_steps, wait_loop_turn, H. reflexivity. Qed.

(** The creation when [open] and [write] go through and nobody touches
    the marker between them. *)
Lemma _createLockFile_makes env w :
  goes_through env (tick w) -> goes_through env (S (tick w)) ->
  leaves_alone env (marker w) (S (tick w)) ->
  fst (_createLockFile env w) = Return tt /\
  (exists t, fs (snd (_createLockFile env w)) !! marker w
             = Some (File (pretty (pid w)) t)) /\
  log (snd (_createLockFile env w)) = log w.
Proof.
  intros Hopen Hwrite Hquiet.
  destruct (_createLockFile_cases env w) as (Made & _).
  split; [apply _createLockFile_returns | ].
  apply Made; [apply Hopen | apply Hwrite | exact Hquiet].
Qed.

(** ** The race between [exists] and [getmtime] *)

(** C4: [__enter__] is [enter_from] at its first poll, and a poll that
    goes round hands over to the next.  At any poll (the loop about to
    evaluate its condition in state [w], with [now] as read last), if the
    existence check sees the marker and the marker is gone when its
    modification time is read (at the first [getmtime], or at the second,
    which is made when the float test held at the first), the poll ends in
    [FileNotFoundError],
    which the [except] clause turns into a normal end of the loop, in the
    state of the failed read: nothing is logged and nothing slept.
    [__enter__] then runs [_createLockFile] and returns normally; when
    [open] and [write] go through and nobody touches the marker between
    them, the marker exists afterwards, holding the process id, and nothing
    has been logged.  And whatever the environment does, [__enter__] never
    raises [FileNotFoundError]. *)
Theorem C4_vanished_marker_ends_the_wait env :
  (forall fuel w,
      __enter__ env fuel w
      = enter_from env fuel (timestamp (clock (after env 1 w))) (after env 1 w)) /\
  (forall fuel now w w',
      wait_condition env now w = (Return true, w') ->
      enter_from env (S fuel) now w
      = enter_from env fuel (timestamp (clock (interfere env (slept env w'))))
          (interfere env (slept env w'))) /\
  (forall fuel now w seen,
      failing env sys_stat w = None ->
      fs (after env 1 w) !! marker w = Some seen ->
      failing env sys_stat (after env 1 w) = None ->
      fs (after env 2 w) !! marker w = None ->
      wait_loop env (S fuel) now w = (Raise FileNotFoundError, after env 2 w) /\
      try_except (wait_loop env (S fuel) now) gone_is_fine w
        = (Return tt, after env 2 w) /\
      enter_from env (S fuel) now w = _createLockFile env (after env 2 w) /\
      fst (enter_from env (S fuel) now w) = Return tt /\
      (goes_through env (2 + tick w) -> goes_through env (3 + tick w) ->
       leaves_alone env (marker w) (3 + tick w) ->
       (exists t, fs (snd (enter_from env (S fuel) now w)) !! marker w
                  = Some (File (pretty (pid w)) t)) /\
       log (snd (enter_from env (S fuel) now w)) = log w)) /\
  (forall fuel now w seen young t,
      failing env sys_stat w = None ->
      fs (after env 1 w) !! marker w = Some seen ->
      failing env sys_stat (after env 1 w) = None ->
      fs (after env 2 w) !! marker w = Some young ->
      float_of_int (_timeout (self w)) = Some t ->
      float_lt now (float_add (st_mtime young) t) = true ->
      failing env sys_stat (after env 2 w) = None ->
      fs (after env 3 w) !! marker w = None ->
      wait_loop env (S fuel) now w = (Raise FileNotFoundError, after env 3 w) /\
      try_except (wait_loop env (S fuel) now) gone_is_fine w
        = (Return tt, after env 3 w) /\
      enter_from env (S fuel) now w = _createLockFile env (after env 3 w) /\
      fst (enter_from env (S fuel) now w) = Return tt /\
      (goes_through env (3 + tick w) -> goes_through env (4 + tick w) ->
       leaves_alone env (marker w) (4 + tick w) ->
       (exists t, fs (snd (enter_from env (S fuel) now w)) !! marker w
                  = Some (File (pretty (pid w)) t)) /\
       log (snd (enter_from env (S fuel) now w)) = log w)) /\
  (forall fuel w, fst (__enter__ env fuel w) <> Raise FileNotFoundError).
Proof.
  assert (Swallowed : forall fuel now w k,
    wait_loop env (S fuel) now w = (Raise FileNotFoundError, after env k w) ->
    try_except (wait_loop env (S fuel) now) gone_is_fine w = (Return tt, after env k w) /\
    enter_from env (S fuel) now w = _createLockFile env (after env k w) /\
    fst (enter_from env (S fuel) now w) = Return tt /\
    (goes_through env (k + tick w) -> goes_through env (S k + tick w) ->
     leaves_alone env (marker w) (S k + tick w) ->
     (exists t, fs (snd (enter_from env (S fuel) now w)) !! marker w
                = Some (File (pretty (pid w)) t)) /\
     log (snd (enter_from env (S fuel) now w)) = log w)).
  { intros fuel now w k Hloop.
    assert (Hfrom : enter_from env (S fuel) now w = _createLockFile env (after env k w)).
    { rewrite enter_from_steps, Hloop. reflexivity. }
    split; [unfold try_except; now rewrite Hloop | ].
    split; [exact Hfrom | ]. rewrite Hfrom.
    split; [apply _createLockFile_returns | ].
    intros Hopen Hwrite Hquiet.
    destruct (_createLockFile_makes env (after env k w)) as (_ & Hpid & Hlog).
    - now rewrite tick_after.
    - now rewrite tick_after.
    - now rewrite tick_after, marker_after.
    - rewrite marker_after, pid_after in Hpid. rewrite log_after in Hlog. now split. }
  split; [intros; apply __enter___first_poll | ].
  split; [intros fuel now w w'; apply enter_from_turn | split; [ | split] ].
  - intros fuel now w seen Hex Hseen Hst Hgone.
    assert (Hloop : wait_loop env (S fuel) now w
                    = (Raise FileNotFoundError, after env 2 w)).
    { rewrite wait_loop_turn, wait_condition_calls. cbn zeta.
      now rewrite Hex, Hseen, Hst, Hgone. }
    split; [exact Hloop | now apply (Swallowed fuel now w 2)].
  - intros fuel now w seen young t Hex Hseen Hst1 Hyoung Ht Hlt Hst2 Hgone.
    assert (Hloop : wait_loop env (S fuel) now w
                    = (Raise FileNotFoundError, after env 3 w)).
    { rewrite wait_loop_turn, wait_condition_calls. cbn zeta.
      now rewrite Hex, Hseen, Hst1, Hyoung, Ht, Hlt, Hst2, Hgone. }
    split; [exact Hloop | now apply (Swallowed fuel now w 3)].
  - intros fuel w H. apply __enter___raise in H.
    apply _waitLockFileDisappear_raise in H.
    destruct H as [(c & n & [= <-] & Hc & _) | [[=] _] ]. now apply Hc.
Qed.

Lemma C4_vanished_marker_ends_the_wait_witness :
  fst (__enter__ (released_at 2 "a.lock") 1 (held_since 99)) = Return tt /\
  (exists t, fs (snd (__enter__ (released_at 2 "a.lock") 1 (held_since 99))) !! "a.lock"
             = Some (File "4242" t)) /\
  log (snd (__enter__ (released_at 2 "a.lock") 1 (held_since 99))) = [] /\
  fst (__enter__ (released_at 3 "a.lock") 1 (held_since 99)) = Return tt /\
  (exists t, fs (snd (__enter__ (released_at 3 "a.lock") 1 (held_since 99))) !! "a.lock"
             = Some (File "4242" t)) /\
  log (snd (__enter__ (released_at 3 "a.lock") 1 (held_since 99))) = [].
Proof.
  destruct (C4_vanished_marker_ends_the_wait (released_at 2 "a.lock"))
    as (Enter2 & _ & First & _ & _).
  destruct (C4_vanished_marker_ends_the_wait (released_at 3 "a.lock"))
    as (Enter3 & _ & _ & Second & _).
  rewrite Enter2, Enter3.
  destruct (First 0%nat
              (timestamp (clock (after (released_at 2 "a.lock") 1 (held_since 99))))
              (after (released_at 2 "a.lock") 1 (held_since 99))
              (File "1234" 99))
    as (_ & _ & _ & R1 & M1); try reflexivity.
  destruct (Second 0%nat
              (timestamp (clock (after (released_at 3 "a.lock") 1 (held_since 99))))
              (after (released_at 3 "a.lock") 1 (held_since 99))
              (File "1234" 99) (File "1234" 99) (binary64 10))
    as (_ & _ & _ & R2 & M2); try reflexivity.
  destruct M1 as [P1 L1]; [intros c; reflexivity | intros c; reflexivity
                          | intros σ; reflexivity | ].
  destruct M2 as [P2 L2]; [intros c; reflexivity | intros c; reflexivity
                          | intros σ; reflexivity | ].
  repeat split; assumption.
Defined.
(** ** Which failures reach the caller *)




(** ** The loop condition *)

Lemma fs_after_quiet env path n w :
  (forall k, k < n -> leaves_alone env path (k + tick w)) ->
  fs (after env n w) !! path = fs w !! path.
Proof.
  induction n as [ | n IH]; intros H; [reflexivity | ].
  cbn [after]. rewrite fs_interfere.
  - apply IH. intros k Hk. apply H. lia.
  - rewrite tick_after. apply H. lia.
Qed.


(** The state a poll ends in is the state three or fewer calls later. *)
Lemma wait_condition_state env now w :
  fst (wait_condition env now w) <> StillWaiting /\
  exists k, 1 <= k <= 3 /\ snd (wait_condition env now w) = after env k w.
Proof.
  rewrite wait_condition_calls. cbn zeta.
  destruct (failing env sys_stat w).
  { split; [discriminate | exists 1; split; [lia | reflexivity] ]. }
  destruct (fs (after env 1 w) !! marker w).
  2: { split; [discriminate | exists 1; split; [lia | reflexivity] ]. }
  destruct (failing env sys_stat (after env 1 w)).
  { split; [discriminate | exists 2; split; [lia | reflexivity] ]. }
  destruct (fs (after env 2 w) !! marker w) as [f1 | ].
  2: { split; [discriminate | exists 2; split; [lia | reflexivity] ]. }
  destruct (float_of_int (_timeout (self w))) as [t | ].
  2: { split; [discriminate | exists 2; split; [lia | reflexivity] ]. }
  destruct (float_lt now (float_add (st_mtime f1) t)).
  2: { split; [discriminate | exists 2; split; [lia | reflexivity] ]. }
  destruct (failing env sys_stat (after env 2 w)).
  { split; [discriminate | exists 3; split; [lia | reflexivity] ]. }
  destruct (fs (after env 3 w) !! marker w);
    (split; [discriminate | exists 3; split; [lia | reflexivity] ]).
Qed.

(** The loop goes round only on what it has just seen: the marker at each
    of the three calls, the clock below the first time stamp plus the
    timeout, as Python adds them, and above the second. *)
Lemma wait_condition_true env now w w' :
  wait_condition env now w = (Return true, w') ->
  exists f1 f2 t,
    is_Some (fs (after env 1 w) !! marker w) /\
    fs (after env 2 w) !! marker w = Some f1 /\
    fs (after env 3 w) !! marker w = Some f2 /\
    float_of_int (_timeout (self w)) = Some t /\
    float_lt now (float_add (st_mtime f1) t) = true /\
    (st_mtime f2 < now)%Q /\
    w' = after env 3 w.
Proof.
  rewrite wait_condition_calls. cbn zeta.
  destruct (failing env sys_stat w); [discriminate | ].
  destruct (fs (after env 1 w) !! marker w) as [f0 | ]; [ | discriminate].
  destruct (failing env sys_stat (after env 1 w)); [discriminate | ].
  destruct (fs (after env 2 w) !! marker w) as [f1 | ]; [ | discriminate].
  destruct (float_of_int (_timeout (self w))) as [t | ]; [ | discriminate].
  destruct (float_lt now (float_add (st_mtime f1) t)) eqn:Young; [ | discriminate].
  destruct (failing env sys_stat (after env 2 w)); [discriminate | ].
  destruct (fs (after env 3 w) !! marker w) as [f2 | ]; [ | discriminate].
  intros [= Past <-]. exists f1, f2, t.
  apply Qltb_lt in Past. repeat split; eauto.
Qed.





(** ** Waiting only while the marker is fresh *)



(** ** A timeout that is not positive *)





(** ** A marker that is still fresh *)

Lemma tenths_S k : (tenths (S k) == tenths k + (1 # 10))%Q.
Proof.
  unfold tenths. rewrite Nat2Z.inj_succ. unfold Z.succ. rewrite inject_Z_plus.
  change (inject_Z 1) with 1%Q. lra.
Qed.

Lemma tenths_0 : (tenths 0 == 0)%Q.
Proof. reflexivity. Qed.


Lemma clock_interfere env w :
  clock (interfere env w) = (clock w + elapsed (env (tick w)))%Q.
Proof. reflexivity. Qed.

Lemma fs_slept env w : fs (slept env w) = fs (interfere env w).
Proof. reflexivity. Qed.

Lemma log_slept env w :
  log (slept env w) = (log w ++ [("d", _wait_msg (self w))])%list.
Proof. reflexivity. Qed.

Lemma clock_slept env w :
  clock (slept env w) = (clock w + elapsed (env (tick w)) + (1 # 10))%Q.
Proof. reflexivity. Qed.

Section Polling.
Variable env : environment.
Variable lk : LockFile.
Variable f : file.
Variable t : Q.
Hypothesis stat_works : forall n, fault (env n) sys_stat = None.
Hypothesis clock_forward : forall n, (0 <= elapsed (env n))%Q.
Hypothesis only_removed : forall n σ,
  meddle (env n) σ !! _filename lk = σ !! _filename lk \/
  meddle (env n) σ !! _filename lk = None.
Hypothesis converts : float_of_int (_timeout lk) = Some t.



Lemma clock_interfere_le w : (clock w <= clock (interfere env w))%Q.
Proof. rewrite clock_interfere. pose proof (clock_forward (tick w)). lra. Qed.

Lemma clock_after_le n w : (clock w <= clock (after env n w))%Q.
Proof.
  induction n as [ | n IH]; [apply Qle_refl | ].
  cbn [after]. pose proof (clock_interfere_le (after env n w)). lra.
Qed.








End Polling.



(** * More on the wait loop *)

(** ** What a run of the loop adds up to *)

Lemma try_gone_state (m : M unit) w :
  snd (try_except m gone_is_fine w) = snd (m w) /\
  (fst (try_except m gone_is_fine w) = StillWaiting <-> fst (m w) = StillWaiting).
Proof.
  unfold try_except, gone_is_fine.
  destruct (m w) as [[[] | e | ] w']; cbn; [ now split | | now split].
  destruct (is_FileNotFoundError e); cbn; split; try reflexivity; split; discriminate.
Qed.

(** [n] turns of the loop and [k] calls of the last, unfinished or
    refusing, poll: the log has [n] more lines, all the wait message at
    severity "d"; [5 * n + k] calls were made; no path the environment
    leaves alone has changed; and with a clock that does not go back at
    least [n] tenths of a second have passed. *)
Lemma wait_loop_account env fuel : forall now w,
  exists n k,
    n <= fuel /\ k <= 3 /\
    log (snd (wait_loop env fuel now w))
      = (log w ++ repeat ("d", _wait_msg (self w)) n)%list /\
    tick (snd (wait_loop env fuel now w)) = 5 * n + k + tick w /\
    (fst (wait_loop env fuel now w) = StillWaiting <-> k = 0) /\
    (k = 0 -> n = fuel) /\
    (forall p, (forall i, leaves_alone env p i) ->
       fs (snd (wait_loop env fuel now w)) !! p = fs w !! p) /\
    ((forall i, (0 <= elapsed (env i))%Q) ->
       (clock w + tenths n <= clock (snd (wait_loop env fuel now w)))%Q).
Proof.
  induction fuel as [ | fuel IH]; intros now w.
  { exists 0, 0. cbn. rewrite app_nil_r.
    repeat split; try lia; try reflexivity.
    intros _. pose proof tenths_0. lra. }
  rewrite wait_loop_turn.
  destruct (wait_condition_state env now w) as (Hsw & k & Hk & Hst).
  destruct (wait_condition env now w) as [[[ | ] | e | ] w0] eqn:C;
    cbn [fst snd] in Hsw, Hst.
  - destruct (wait_condition_true _ _ _ _ C) as (_ & _ & _ & _ & _ & _ & _ & _ & _ & ->).
    set (w2 := interfere env (slept env (after env 3 w))).
    destruct (IH (timestamp (clock w2)) w2) as (n & k' & Hn & Hk' & Hlog & Htick & Hsw' & Hfull & Hfs & Hclock).
    assert (Hself : self w2 = self w).
    { unfold w2. now rewrite self_interfere, self_slept, self_after. }
    exists (S n), k'. rewrite Hlog, Htick, Hself.
    split; [lia | ]. split; [exact Hk' | ].
    split.
    { unfold w2. rewrite log_interfere, log_slept, log_after, self_after.
      rewrite <- app_assoc. reflexivity. }
    split.
    { unfold w2. rewrite tick_interfere.
      change (tick (slept env (after env 3 w))) with (S (tick (after env 3 w))).
      rewrite tick_after. lia. }
    split; [exact Hsw' | ].
    split; [intros H; f_equal; now apply Hfull | ].
    split.
    + intros p Hp. rewrite (Hfs p Hp). unfold w2.
      rewrite fs_interfere by apply Hp.
      rewrite fs_slept, fs_interfere by apply Hp.
      apply fs_after_quiet. intros; apply Hp.
    + intros Hfwd. specialize (Hclock Hfwd).
      pose proof (clock_interfere_le env Hfwd (slept env (after env 3 w))) as H1.
      fold w2 in H1. rewrite clock_slept in H1.
      pose proof (Hfwd (tick (after env 3 w))).
      pose proof (clock_after_le env Hfwd 3 w).
      pose proof (tenths_S n). lra.
  - subst w0. exists 0, k. cbn [fst snd repeat]. rewrite app_nil_r, log_after, tick_after.
    split; [lia | ]. split; [lia | ]. split; [reflexivity | ]. split; [lia | ].
    split; [split; [discriminate | lia] | ].
    split; [lia | ].
    split.
    + intros p Hp. apply fs_after_quiet. intros; apply Hp.
    + intros Hfwd. pose proof (clock_after_le env Hfwd k w). pose proof tenths_0. lra.
  - subst w0. exists 0, k. cbn [fst snd repeat]. rewrite app_nil_r, log_after, tick_after.
    split; [lia | ]. split; [lia | ]. split; [reflexivity | ]. split; [lia | ].
    split; [split; [discriminate | lia] | ].
    split; [lia | ].
    split.
    + intros p Hp. apply fs_after_quiet. intros; apply Hp.
    + intros Hfwd. pose proof (clock_after_le env Hfwd k w). pose proof tenths_0. lra.
  - now contradiction Hsw.
Qed.

(** X1: in any environment, [_waitLockFileDisappear] logs nothing but its
    wait message at severity "d", once per turn of the loop; with [n]
    turns made it has issued [1 + 5 * n + k] calls, where [k <= 3] counts
    the calls of the poll that ended the loop, and [k = 0] exactly when the
    fuel ([n] turns) ran out first. *)
Theorem X1_wait_loop_accounting env fuel w :
  exists n k,
    n <= fuel /\ k <= 3 /\
    log (snd (_waitLockFileDisappear env fuel w))
      = (log w ++ repeat ("d", _wait_msg (self w)) n)%list /\
    tick (snd (_waitLockFileDisappear env fuel w)) = tick w + 1 + 5 * n + k /\
    (fst (_waitLockFileDisappear env fuel w) = StillWaiting <-> k = 0) /\
    (k = 0 -> n = fuel).
Proof.
  change (_waitLockFileDisappear env fuel w)
    with (try_except (wait_loop env fuel (timestamp (clock (interfere env w)))) gone_is_fine
            (interfere env w)).
  destruct (try_gone_state (wait_loop env fuel (timestamp (clock (interfere env w)))) (interfere env w))
    as [Hs Hf].
  destruct (wait_loop_account env fuel (timestamp (clock (interfere env w))) (interfere env w))
    as (n & k & Hn & Hk & Hlog & Htick & Hsw & Hfull & _ & _).
  exists n, k. rewrite Hs, Hf, Hlog, Htick, log_interfere, self_interfere, tick_interfere.
  repeat split; try assumption; try lia; apply Hsw.
Qed.

Lemma _waitLockFileDisappear_log env fuel w :
  exists n, n <= fuel /\
    log (snd (_waitLockFileDisappear env fuel w))
      = (log w ++ repeat ("d", _wait_msg (self w)) n)%list.
Proof.
  change (_waitLockFileDisappear env fuel w)
    with (try_except (wait_loop env fuel (timestamp (clock (interfere env w)))) gone_is_fine
            (interfere env w)).
  destruct (try_gone_state (wait_loop env fuel (timestamp (clock (interfere env w)))) (interfere env w))
    as [-> _].
  destruct (wait_loop_account env fuel (timestamp (clock (interfere env w))) (interfere env w))
    as (n & k & Hn & _ & Hlog & _).
  exists n. split; [exact Hn | ]. now rewrite Hlog, log_interfere, self_interfere.
Qed.

Lemma log__createLockFile env w :
  log (snd (_createLockFile env w)) = log w \/
  log (snd (_createLockFile env w)) = (log w ++ [create_failed w])%list.
Proof.
  rewrite _createLockFile_calls. cbn zeta.
  destruct (failing env sys_open w).
  { right. unfold logged; cbn [snd fst Logger_log log]. now rewrite log_after. }
  match goal with |- context [failing env sys_write ?o] =>
    destruct (failing env sys_write o) end.
  { right. unfold logged; cbn [snd fst Logger_log log put_file]. rewrite log_interfere. cbn [put_file log]. now rewrite log_after. }
  match goal with |- context [fs ?s !! ?p] => destruct (fs s !! p) end;
    left; cbn [snd put_file log]; rewrite log_interfere; cbn [put_file log];
    apply log_after.
Qed.

Lemma log__deleteLockFile env w :
  log (snd (_deleteLockFile env w)) = log w \/
  log (snd (_deleteLockFile env w)) = (log w ++ [delete_failed w])%list.
Proof.
  rewrite _deleteLockFile_calls. cbn zeta.
  destruct (failing env sys_unlink w) as [c | ].
  - destruct (errno_eqb c ENOENT); [left | right]; unfold logged;
      cbn [snd fst Logger_log log]; now rewrite log_after.
  - destruct (fs (after env 1 w) !! marker w); left; cbn [snd drop_file log];
      apply log_after.
Qed.

(** X2: everything the guard ever logs.  [__enter__] adds [n] wait
    messages at severity "d", one per turn of the loop, and after them at
    most one line, ("e", "Could not create lock file [<path>]");
    [__exit__] adds nothing or the single line
    ("e", "Could not delete lock file [<path>]").  This holds in every
    environment. *)
Theorem X2_what_the_guard_logs env fuel exc w :
  (exists n, n <= fuel /\
     (log (snd (__enter__ env fuel w))
        = (log w ++ repeat ("d", _wait_msg (self w)) n)%list \/
      log (snd (__enter__ env fuel w))
        = (log w ++ repeat ("d", _wait_msg (self w)) n ++
             [("e", ("Could not create lock file [" ++ marker w ++ "]")%string)])%list)) /\
  (log (snd (__exit__ env exc w)) = log w \/
   log (snd (__exit__ env exc w))
     = (log w ++ [("e", ("Could not delete lock file [" ++ marker w ++ "]")%string)])%list).
Proof.
  split.
  - destruct (_waitLockFileDisappear_log env fuel w) as (n & Hn & Hlog).
    exists n. split; [exact Hn | ].
    destruct (keeps_self__waitLockFileDisappear env fuel w) as [Hself _].
    rewrite __enter___steps.
    destruct (_waitLockFileDisappear env fuel w) as [[[] | e | ] w1];
      cbn [fst snd] in *; try (now left).
    destruct (log__createLockFile env w1) as [-> | ->]; [now left | right].
    unfold create_failed, marker. rewrite Hself, Hlog, <- app_assoc. reflexivity.
  - rewrite __exit___calls. cbn [snd]. apply log__deleteLockFile.
Qed.

(** X3: with a clock that does not go back, each turn of the loop costs at
    least the tenth of a second it sleeps: when [_waitLockFileDisappear] has
    logged [n] wait messages, at least [n] tenths of a second have passed
    since it was called. *)
Theorem X3_each_turn_takes_a_tenth env fuel w :
  (forall i, (0 <= elapsed (env i))%Q) ->
  exists n,
    log (snd (_waitLockFileDisappear env fuel w))
      = (log w ++ repeat ("d", _wait_msg (self w)) n)%list /\
    (clock w + tenths n <= clock (snd (_waitLockFileDisappear env fuel w)))%Q.
Proof.
  intros Hfwd.
  change (_waitLockFileDisappear env fuel w)
    with (try_except (wait_loop env fuel (timestamp (clock (interfere env w)))) gone_is_fine
            (interfere env w)).
  destruct (try_gone_state (wait_loop env fuel (timestamp (clock (interfere env w)))) (interfere env w))
    as [-> _].
  destruct (wait_loop_account env fuel (timestamp (clock (interfere env w))) (interfere env w))
    as (n & k & _ & _ & Hlog & _ & _ & _ & _ & Hclock).
  exists n. split.
  - now rewrite Hlog, log_interfere, self_interfere.
  - specialize (Hclock Hfwd). pose proof (clock_interfere_le env Hfwd w). lra.
Qed.

Lemma X3_each_turn_takes_a_tenth_witness :
  exists n,
    log (snd (_waitLockFileDisappear alone 3 (held_since 99)))
      = ([] ++ repeat ("d", "Waiting for lock file to disappear...") n)%list /\
    (100 + tenths n <= clock (snd (_waitLockFileDisappear alone 3 (held_since 99))))%Q.
Proof.
  apply (X3_each_turn_takes_a_tenth alone 3 (held_since 99)).
  intros i. cbn. lra.
Defined.

(** ** What the guard leaves alone *)

Lemma fs_put_file_ne p q f w : p <> q -> fs (put_file q f w) !! p = fs w !! p.
Proof. intros H. unfold put_file. cbn [fs]. now apply lookup_insert_ne. Qed.

Lemma fs_drop_file_ne p q w : p <> q -> fs (drop_file q w) !! p = fs w !! p.
Proof. intros H. unfold drop_file. cbn [fs]. now apply lookup_delete_ne. Qed.

Lemma fs__waitLockFileDisappear env fuel w p :
  (forall i, leaves_alone env p i) ->
  fs (snd (_waitLockFileDisappear env fuel w)) !! p = fs w !! p.
Proof.
  intros Hp.
  change (_waitLockFileDisappear env fuel w)
    with (try_except (wait_loop env fuel (timestamp (clock (interfere env w)))) gone_is_fine
            (interfere env w)).
  destruct (try_gone_state (wait_loop env fuel (timestamp (clock (interfere env w)))) (interfere env w))
    as [-> _].
  destruct (wait_loop_account env fuel (timestamp (clock (interfere env w))) (interfere env w))
    as (n & k & _ & _ & _ & _ & _ & _ & Hfs & _).
  rewrite (Hfs p Hp). apply fs_interfere, Hp.
Qed.

Lemma fs__createLockFile_other env w p :
  p <> marker w -> (forall i, leaves_alone env p i) ->
  fs (snd (_createLockFile env w)) !! p = fs w !! p.
Proof.
  intros Hne Hp. rewrite _createLockFile_calls. cbn zeta.
  assert (H1 : fs (after env 1 w) !! p = fs w !! p) by (apply fs_interfere, Hp).
  destruct (failing env sys_open w); [exact H1 | ].
  set (opened := put_file (marker w) (File "" (clock (after env 1 w))) (after env 1 w)).
  assert (H2 : fs (interfere env opened) !! p = fs w !! p).
  { rewrite fs_interfere by apply Hp. unfold opened. now rewrite fs_put_file_ne. }
  destruct (failing env sys_write opened); [exact H2 | ].
  destruct (fs (interfere env opened) !! marker w); cbn [snd]; [ | exact H2].
  now rewrite fs_put_file_ne.
Qed.

Lemma fs__createLockFile_stays env w p :
  (forall i, leaves_alone env p i) ->
  is_Some (fs w !! p) -> is_Some (fs (snd (_createLockFile env w)) !! p).
Proof.
  intros Hp Hthere.
  destruct (decide (p = marker w)) as [-> | Hne].
  2: { now rewrite fs__createLockFile_other. }
  rewrite _createLockFile_calls. cbn zeta.
  assert (H1 : fs (after env 1 w) !! marker w = fs w !! marker w)
    by (apply fs_interfere, Hp).
  destruct (failing env sys_open w);
    [unfold logged; cbn [snd fst Logger_log fs]; now rewrite H1 | ].
  set (opened := put_file (marker w) (File "" (clock (after env 1 w))) (after env 1 w)).
  assert (H2 : fs (interfere env opened) !! marker w
               = Some (File "" (clock (after env 1 w)))).
  { rewrite fs_interfere by apply Hp. apply lookup_put_file. }
  rewrite H2.
  destruct (failing env sys_write opened); cbn [snd].
  - unfold logged. cbn [snd fst Logger_log fs]. rewrite H2. eauto.
  - rewrite lookup_put_file. eauto.
Qed.

Lemma fs__deleteLockFile_other env w p :
  p <> marker w -> (forall i, leaves_alone env p i) ->
  fs (snd (_deleteLockFile env w)) !! p = fs w !! p.
Proof.
  intros Hne Hp. rewrite _deleteLockFile_calls. cbn zeta.
  assert (H1 : fs (after env 1 w) !! p = fs w !! p) by (apply fs_interfere, Hp).
  destruct (failing env sys_unlink w) as [c | ].
  - now destruct (errno_eqb c ENOENT).
  - destruct (fs (after env 1 w) !! marker w); cbn [snd]; [ | exact H1].
    now rewrite fs_drop_file_ne.
Qed.

(** X4: the guard touches no path but its own, and waiting only reads.  For
    a path [p] that other processes leave alone: [_waitLockFileDisappear]
    leaves [p] as it is (the marker included); [__enter__] and [__exit__]
    leave [p] as it is when [p] is not the marker; and [__enter__] never
    removes a file: what was at [p] before is still a file after, whether or
    not creating the marker worked. *)
Theorem X4_other_paths_untouched env fuel exc w p :
  (forall i, leaves_alone env p i) ->
  fs (snd (_waitLockFileDisappear env fuel w)) !! p = fs w !! p /\
  (p <> marker w ->
     fs (snd (__enter__ env fuel w)) !! p = fs w !! p /\
     fs (snd (__exit__ env exc w)) !! p = fs w !! p) /\
  (is_Some (fs w !! p) -> is_Some (fs (snd (__enter__ env fuel w)) !! p)).
Proof.
  intros Hp.
  pose proof (fs__waitLockFileDisappear env fuel w p Hp) as Hwait.
  destruct (keeps_self__waitLockFileDisappear env fuel w) as [Hself _].
  split; [exact Hwait | split].
  - intros Hne. split.
    + rewrite __enter___steps.
      destruct (_waitLockFileDisappear env fuel w) as [[[] | e | ] w1];
        cbn [fst snd] in *; try exact Hwait.
      rewrite fs__createLockFile_other; [exact Hwait | | exact Hp].
      unfold marker. now rewrite Hself.
    + rewrite __exit___calls. cbn [snd]. now apply fs__deleteLockFile_other.
  - intros Hthere. rewrite __enter___steps.
    destruct (_waitLockFileDisappear env fuel w) as [[[] | e | ] w1];
      cbn [fst snd] in *; try (now rewrite Hwait).
    apply fs__createLockFile_stays; [exact Hp | now rewrite Hwait].
Qed.

Lemma X4_other_paths_untouched_witness :
  fs (snd (_waitLockFileDisappear alone 2 shared_dir)) !! "notes.txt"
    = Some (File "keep" 7) /\
  fs (snd (__enter__ alone 2 shared_dir)) !! "notes.txt" = Some (File "keep" 7) /\
  fs (snd (__exit__ alone None shared_dir)) !! "notes.txt" = Some (File "keep" 7).
Proof.
  destruct (X4_other_paths_untouched alone 2 None shared_dir "notes.txt")
    as (Hwait & Hother & _).
  { intros i σ. reflexivity. }
  destruct Hother as [Henter Hexit]; [discriminate | ].
  split; [exact Hwait | split; [exact Henter | exact Hexit] ].
Defined.

(** ** A marker that is not in the past *)



(** ** Releasing twice *)

(** X6: releasing twice is harmless.  When the first [os.remove] goes
    through and no other process recreates the marker before the second,
    the second [__exit__] returns normally, the marker is absent, and
    neither call has logged anything, whether or not there was a marker to
    begin with. *)
Theorem X6_release_twice env exc1 exc2 w :
  failing env sys_unlink w = None ->
  failing env sys_unlink (snd (__exit__ env exc1 w)) = None ->
  leaves_alone env (marker w) (S (tick w)) ->
  fst (__exit__ env exc2 (snd (__exit__ env exc1 w))) = Return None /\
  log (snd (__exit__ env exc2 (snd (__exit__ env exc1 w)))) = log w /\
  fs (snd (__exit__ env exc2 (snd (__exit__ env exc1 w)))) !! marker w = None.
Proof.
  intros Hfirst Hsecond Hquiet.
  assert (Hone : exists w1,
            snd (__exit__ env exc1 w) = w1 /\ fs w1 !! marker w = None /\
            log w1 = log w /\ tick w1 = S (tick w) /\ marker w1 = marker w).
  { rewrite __exit___calls, _deleteLockFile_calls. cbn zeta. rewrite Hfirst.
    destruct (fs (after env 1 w) !! marker w) eqn:E; cbn [snd]; eexists;
      (split; [reflexivity | ]).
    - repeat split. apply lookup_delete_eq.
    - repeat split. exact E. }
  destruct Hone as (w1 & E1 & Hgone & Hlog & Htick & Hmark).
  rewrite E1 in *.
  rewrite __exit___calls, _deleteLockFile_calls. cbn zeta.
  rewrite Hsecond, Hmark.
  assert (E : fs (after env 1 w1) !! marker w = None).
  { cbn [after]. rewrite fs_interfere by (rewrite Htick; exact Hquiet). exact Hgone. }
  rewrite E. cbn [fst snd]. rewrite log_after.
  split; [reflexivity | split; [exact Hlog | exact E] ].
Qed.

Lemma X6_release_twice_witness :
  fst (__exit__ alone None (snd (__exit__ alone None (held_since 99)))) = Return None /\
  log (snd (__exit__ alone None (snd (__exit__ alone None (held_since 99))))) = [] /\
  fs (snd (__exit__ alone None (snd (__exit__ alone None (held_since 99)))))
    !! "a.lock" = None.
Proof.
  apply (X6_release_twice alone None None (held_since 99)).
  - reflexivity.
  - reflexivity.
  - intros σ. reflexivity.
Defined.

(** ** When creating the marker fails *)

(** X7: the two ways [_createLockFile] can fail leave different things
    behind.  If [open] fails, the file system stays as the call found it, so
    a marker another process holds is kept.  If [open] goes through and the
    write fails, an empty marker is left at the path.  Either way exactly
    one line is logged, ("e", "Could not create lock file [<path>]"), and
    the method returns normally. *)
Theorem X7_failed_creation env w :
  (forall c, failing env sys_open w = Some c ->
     _createLockFile env w
     = (Return tt, logged ("e", ("Could not create lock file [" ++ marker w ++ "]")%string)
                     (after env 1 w)) /\
     fs (snd (_createLockFile env w)) = fs (after env 1 w)) /\
  (forall c,
     failing env sys_open w = None ->
     fault (env (S (tick w))) sys_write = Some c ->
     leaves_alone env (marker w) (S (tick w)) ->
     fst (_createLockFile env w) = Return tt /\
     (exists t, fs (snd (_createLockFile env w)) !! marker w = Some (File "" t)) /\
     log (snd (_createLockFile env w))
       = (log w ++
            [("e", ("Could not create lock file [" ++ marker w ++ "]")%string)])%list).
Proof.
  split.
  - intros c Hc. rewrite _createLockFile_calls. cbn zeta. rewrite Hc.
    split; reflexivity.
  - intros c Hopen Hwrite Hquiet. rewrite _createLockFile_calls. cbn zeta.
    rewrite Hopen.
    set (opened := put_file (marker w) (File "" (clock (after env 1 w))) (after env 1 w)).
    assert (Hw : failing env sys_write opened = Some c).
    { unfold failing, opened. cbn [put_file tick after]. now rewrite tick_interfere. }
    rewrite Hw. cbn [fst snd].
    split; [reflexivity | split].
    + eexists. unfold logged. cbn [snd fst Logger_log fs].
      rewrite fs_interfere.
      * apply lookup_put_file.
      * unfold opened. cbn [put_file tick after]. rewrite tick_interfere. exact Hquiet.
    + unfold logged. cbn [snd fst Logger_log log]. rewrite log_interfere.
      unfold opened. cbn [put_file log]. now rewrite log_after.
Qed.

Lemma X7_failed_creation_witness :
  fs (snd (_createLockFile (failing_at 0 EACCES) (held_since 99))) !! "a.lock"
    = Some (File "1234" 99) /\
  (exists t, fs (snd (_createLockFile (failing_at 1 ENOSPC) free)) !! "a.lock"
             = Some (File "" t)) /\
  log (snd (_createLockFile (failing_at 1 ENOSPC) free))
    = [("e", "Could not create lock file [a.lock]")].
Proof.
  destruct (X7_failed_creation (failing_at 0 EACCES) (held_since 99)) as [Hopen _].
  destruct (X7_failed_creation (failing_at 1 ENOSPC) free) as [_ Hwrite].
  destruct (Hopen EACCES eq_refl) as [_ Hfs].
  destruct (Hwrite ENOSPC eq_refl eq_refl (fun σ => eq_refl)) as (_ & Hempty & Hlog).
  split; [now rewrite Hfs | split; [exact Hempty | exact Hlog] ].
Defined.

(** ** The race the source describes *)

(** X8: the interleaving in the comment of [_deleteLockFile].  This process
    finds no marker; another process creates its marker before this
    process's [open]; both do their work; the other process removes the
    marker before this process's [os.remove].  Then [__enter__] returns
    normally with this process's id written over the other's marker (the
    [open] does not fail), [__exit__] returns normally, and nothing at all
    is logged. *)
Theorem X8_both_hold_the_lock env fuel exc w theirs :
  fs w !! marker w = None ->
  (forall k, k < 5 -> goes_through env (k + tick w)) ->
  leaves_alone env (marker w) (tick w) ->
  leaves_alone env (marker w) (1 + tick w) ->
  (forall σ, meddle (env (2 + tick w)) σ !! marker w = Some theirs) ->
  leaves_alone env (marker w) (3 + tick w) ->
  (forall σ, meddle (env (4 + tick w)) σ !! marker w = None) ->
  let acquired := __enter__ env (S fuel) w in
  let released := __exit__ env exc (snd acquired) in
  fst acquired = Return tt /\
  (exists t, fs (snd acquired) !! marker w = Some (File (pretty (pid w)) t)) /\
  fst released = Return None /\
  fs (snd released) !! marker w = None /\
  log (snd released) = log w.
Proof.
  intros Hfree Hgo Ha0 Ha1 Htheirs Ha3 Hgone. cbn zeta.
  assert (Hf : forall k, k < 5 -> forall c, fault (env (k + tick w)) c = None).
  { intros k Hk. now apply Hgo. }
  assert (Hwait : _waitLockFileDisappear env (S fuel) w = (Return tt, after env 2 w)).
  { unfold _waitLockFileDisappear, time_time. run.
    change (interfere env w) with (after env 1 w).
    rewrite wait_loop_turn, wait_condition_calls. cbn zeta.
    unfold failing. rewrite tick_after, (Hf 1) by lia.
    rewrite marker_after.
    change (after env 1 (after env 1 w)) with (after env 2 w).
    assert (E : fs (after env 2 w) !! marker w = None).
    { cbn [after]. rewrite fs_interfere by (rewrite tick_interfere; exact Ha1).
      rewrite fs_interfere by exact Ha0. exact Hfree. }
    rewrite E. reflexivity. }
  set (opened := put_file (marker w) (File "" (clock (after env 3 w))) (after env 3 w)).
  set (held := put_file (marker w) (File (pretty (pid w)) (clock (interfere env opened)))
                 (interfere env opened)).
  assert (Htick : tick opened = 3 + tick w).
  { unfold opened. cbn [put_file tick]. apply tick_after. }
  assert (Hcreate : _createLockFile env (after env 2 w) = (Return tt, held)).
  { rewrite _createLockFile_calls. cbn zeta.
    rewrite marker_after, pid_after.
    change (after env 1 (after env 2 w)) with (after env 3 w). fold opened.
    unfold failing. rewrite tick_after, (Hf 2), Htick, (Hf 3) by lia.
    rewrite fs_interfere by (rewrite Htick; exact Ha3).
    unfold opened at 1. rewrite lookup_put_file. reflexivity. }
  assert (Henter : __enter__ env (S fuel) w = (Return tt, held)).
  { unfold __enter__. rewrite (bind_Return _ _ _ _ _ Hwait). exact Hcreate. }
  assert (Hheld : tick held = 4 + tick w).
  { unfold held. cbn [put_file tick]. rewrite tick_interfere, Htick. reflexivity. }
  rewrite Henter. cbn [fst snd].
  split; [reflexivity | ].
  split; [eexists; apply lookup_put_file | ].
  rewrite __exit___calls. cbn [fst snd].
  rewrite _deleteLockFile_calls. cbn zeta.
  assert (Hmark : marker held = marker w) by reflexivity.
  unfold failing. rewrite Hheld, (Hf 4), Hmark by lia.
  assert (E : fs (after env 1 held) !! marker w = None).
  { cbn [after]. change (fs (interfere env held)) with (meddle (env (tick held)) (fs held)).
    rewrite Hheld. apply Hgone. }
  rewrite E. cbn [snd].
  split; [reflexivity | split; [exact E | ] ].
  rewrite log_after. unfold held. cbn [put_file log]. rewrite log_interfere.
  unfold opened. cbn [put_file log]. apply log_after.
Qed.

Lemma X8_both_hold_the_lock_witness :
  fst (__enter__ (racing "a.lock" (File "1234" 100)) 1 free) = Return tt /\
  (exists t, fs (snd (__enter__ (racing "a.lock" (File "1234" 100)) 1 free)) !! "a.lock"
             = Some (File "4242" t)) /\
  fst (__exit__ (racing "a.lock" (File "1234" 100)) None
         (snd (__enter__ (racing "a.lock" (File "1234" 100)) 1 free))) = Return None /\
  fs (snd (__exit__ (racing "a.lock" (File "1234" 100)) None
         (snd (__enter__ (racing "a.lock" (File "1234" 100)) 1 free)))) !! "a.lock"
    = None /\
  log (snd (__exit__ (racing "a.lock" (File "1234" 100)) None
         (snd (__enter__ (racing "a.lock" (File "1234" 100)) 1 free)))) = [].
Proof.
  apply (X8_both_hold_the_lock (racing "a.lock" (File "1234" 100)) 0 None free
           (File "1234" 100)).
  - reflexivity.
  - intros k Hk c. do 5 (destruct k as [ | k]; [reflexivity | ]). lia.
  - intros σ. reflexivity.
  - intros σ. reflexivity.
  - intros σ. apply lookup_insert_eq.
  - intros σ. reflexivity.
  - intros σ. apply lookup_delete_eq.
Defined.

(** ** How long the wait lasts *)





(** ** The marker's content is never read *)

Lemma alike_interfere env w1 w2 :
  content_blind env -> alike w1 w2 -> alike (interfere env w1) (interfere env w2).
Proof.
  intros Hblind (Hself & Hclock & Hlog & Htick & Hfs).
  unfold alike, interfere. cbn [self clock log tick fs].
  rewrite Hself, Hclock, Hlog, Htick. repeat split. now apply Hblind.
Qed.

Lemma alike_after env n w1 w2 :
  content_blind env -> alike w1 w2 -> alike (after env n w1) (after env n w2).
Proof.
  intros Hblind H. induction n as [ | n IH]; [exact H | ].
  cbn [after]. now apply alike_interfere.
Qed.

Lemma alike_slept env w1 w2 :
  content_blind env -> alike w1 w2 -> alike (slept env w1) (slept env w2).
Proof.
  intros Hblind (Hself & Hclock & Hlog & Htick & Hfs).
  unfold alike, slept, logged, time_sleep, Logger_log, interfere.
  cbn [fst snd self clock log tick fs].
  rewrite Hself, Hclock, Hlog, Htick. repeat split. now apply Hblind.
Qed.

(** What [os.stat] can tell of a path in two states that are alike. *)
Lemma alike_lookup w1 w2 p :
  alike w1 w2 ->
  (fs w1 !! p = None /\ fs w2 !! p = None) \/
  (exists f1 f2, fs w1 !! p = Some f1 /\ fs w2 !! p = Some f2 /\ mtime f1 = mtime f2).
Proof.
  intros (_ & _ & _ & _ & Hfs). specialize (Hfs p).
  destruct (fs w1 !! p) as [f1 | ], (fs w2 !! p) as [f2 | ]; cbn in Hfs;
    try discriminate.
  - right. exists f1, f2. repeat split. congruence.
  - now left.
Qed.

Lemma alike_wait_condition env now w1 w2 :
  content_blind env -> alike w1 w2 ->
  fst (wait_condition env now w1) = fst (wait_condition env now w2) /\
  alike (snd (wait_condition env now w1)) (snd (wait_condition env now w2)).
Proof.
  intros Hblind H.
  pose proof (alike_after env 1 _ _ Hblind H) as H1.
  pose proof (alike_after env 2 _ _ Hblind H) as H2.
  pose proof (alike_after env 3 _ _ Hblind H) as H3.
  assert (Hm : marker w1 = marker w2) by (unfold marker; now destruct H as [-> _]).
  assert (HT : _timeout (self w1) = _timeout (self w2)) by now destruct H as [-> _].
  assert (F0 : failing env sys_stat w1 = failing env sys_stat w2).
  { unfold failing. now destruct H as (_ & _ & _ & -> & _). }
  assert (F1 : failing env sys_stat (after env 1 w1) = failing env sys_stat (after env 1 w2)).
  { unfold failing. now destruct H1 as (_ & _ & _ & -> & _). }
  assert (F2 : failing env sys_stat (after env 2 w1) = failing env sys_stat (after env 2 w2)).
  { unfold failing. now destruct H2 as (_ & _ & _ & -> & _). }
  rewrite !wait_condition_calls. cbn zeta. rewrite F0, F1, F2, Hm, HT.
  unfold st_mtime.
  destruct (failing env sys_stat w2); [now split | ].
  destruct (alike_lookup _ _ (marker w2) H1) as [[-> ->] | (a1 & a2 & -> & -> & _)];
    [now split | ].
  destruct (failing env sys_stat (after env 1 w2)); [now split | ].
  destruct (alike_lookup _ _ (marker w2) H2) as [[-> ->] | (b1 & b2 & -> & -> & Eb)];
    [now split | ].
  rewrite Eb.
  destruct (float_of_int (_timeout (self w2))) as [t | ]; [ | now split].
  destruct (float_lt now (float_add (timestamp (mtime b2)) t)); [ | now split].
  destruct (failing env sys_stat (after env 2 w2)); [now split | ].
  destruct (alike_lookup _ _ (marker w2) H3) as [[-> ->] | (c1 & c2 & -> & -> & Ec)];
    [now split | ].
  rewrite Ec. now split.
Qed.

Lemma alike_wait_loop env fuel :
  content_blind env ->
  forall now w1 w2, alike w1 w2 ->
    fst (wait_loop env fuel now w1) = fst (wait_loop env fuel now w2) /\
    alike (snd (wait_loop env fuel now w1)) (snd (wait_loop env fuel now w2)).
Proof.
  intros Hblind. induction fuel as [ | fuel IH]; intros now w1 w2 H.
  { now split. }
  rewrite !wait_loop_turn.
  destruct (alike_wait_condition env now w1 w2 Hblind H) as [Hr Hs].
  destruct (wait_condition env now w1) as [r1 s1], (wait_condition env now w2) as [r2 s2].
  cbn [fst snd] in Hr, Hs. subst r2.
  destruct r1 as [[ | ] | e | ]; try (now split).
  pose proof (alike_interfere env _ _ Hblind (alike_slept env _ _ Hblind Hs)) as Hnext.
  assert (Hclock : clock (interfere env (slept env s1)) = clock (interfere env (slept env s2)))
    by now destruct Hnext as (_ & -> & _).
  rewrite Hclock. now apply IH.
Qed.

(** X10: the wait never reads what the marker holds.  Started in two
    states that differ only in the content of files and in the process id,
    with other processes that do not look at contents either,
    [_waitLockFileDisappear] ends the same way, after the same number of
    calls, with the same log and at the same time.  So the guard waits on
    its own marker exactly as on anyone else's. *)
Theorem X10_wait_ignores_marker_content env fuel w1 w2 :
  content_blind env ->
  alike w1 w2 ->
  fst (_waitLockFileDisappear env fuel w1) = fst (_waitLockFileDisappear env fuel w2) /\
  alike (snd (_waitLockFileDisappear env fuel w1))
        (snd (_waitLockFileDisappear env fuel w2)).
Proof.
  intros Hblind H.
  change (_waitLockFileDisappear env fuel w1)
    with (try_except (wait_loop env fuel (timestamp (clock (interfere env w1))))
            gone_is_fine (interfere env w1)).
  change (_waitLockFileDisappear env fuel w2)
    with (try_except (wait_loop env fuel (timestamp (clock (interfere env w2))))
            gone_is_fine (interfere env w2)).
  pose proof (alike_interfere env _ _ Hblind H) as H1.
  assert (Hclock : clock (interfere env w1) = clock (interfere env w2))
    by now destruct H1 as (_ & -> & _).
  rewrite Hclock.
  destruct (alike_wait_loop env fuel Hblind (timestamp (clock (interfere env w2))) _ _ H1)
    as [Hr Hs].
  unfold try_except, gone_is_fine.
  destruct (wait_loop env fuel (timestamp (clock (interfere env w2))) (interfere env w1))
    as [r1 s1],
           (wait_loop env fuel (timestamp (clock (interfere env w2))) (interfere env w2))
    as [r2 s2].
  cbn [fst snd] in Hr, Hs. subst r2.
  destruct r1 as [[] | e | ]; try (now split).
  destruct (is_FileNotFoundError e); now split.
Qed.

Lemma X10_wait_ignores_marker_content_witness :
  fst (_waitLockFileDisappear alone 3 (held_with "4242" 99))
    = fst (_waitLockFileDisappear alone 3 (held_with "1234" 99)) /\
  alike (snd (_waitLockFileDisappear alone 3 (held_with "4242" 99)))
        (snd (_waitLockFileDisappear alone 3 (held_with "1234" 99))).
Proof.
  apply (X10_wait_ignores_marker_content alone 3
           (held_with "4242" 99) (held_with "1234" 99)).
  - intros n σ1 σ2 H. exact H.
  - repeat split. intros p. unfold held_with, start. cbn [fs].
    destruct (decide (p = "a.lock")) as [-> | Hne].
    + reflexivity.
    + now rewrite !lookup_singleton_ne.
Defined.
